(** * Traefik monitoring script: health probes, alert rules, metrics snapshot

    A shallow embedding of [monitoring.js].  The script polls a fixed list of
    HTTP(S) endpoints, classifies each answer, inspects the TLS certificate,
    lists the local containers, derives alerts and overwrites a JSON metrics
    file after every cycle.

    Conventions of the embedding:
    - JavaScript numbers that the script handles (status codes, milliseconds,
      day counts, thresholds) are integers far below 2^53 and are modelled
      by [Z];
    - strings are [string]; [`${n}`] of such a number is its signed decimal
      rendering;
    - an object used as a dictionary ([metrics.services], [containers]) is a
      [gmap string _]; its enumeration order is the one of [map_to_list];
    - the wall clock is an oracle [now : nat -> Date] read through a counter:
      the k-th evaluation of [new Date()] / [Date.now()] yields [now k].  All
      statements quantify over the oracle, hence over every interleaving of
      the clock reads of concurrent probes;
    - what the network does to one request is a list of [Event]s in the order
      the event loop delivers them;
    - a thrown JavaScript exception is the [Throw] completion; a promise that
      is never settled is [Pending]. *)

From Stdlib Require Import ZArith String Ascii List DecimalString Lia.
From stdpp Require Import gmap strings list fin_maps.

Local Open Scope Z_scope.

(** ** Strings: the built-ins the script calls *)

Module Js.

(** Template-literal rendering of an integer number. *)
Definition numberToString (z : Z) : string :=
  NilZero.string_of_int (Z.to_int z).

(** [s.startsWith(p)]. *)
Definition startsWith (s p : string) : bool := String.prefix p s.

(** [s.includes(needle)]. *)
Fixpoint includes (s needle : string) : bool :=
  String.prefix needle s ||
  match s with
  | EmptyString => false
  | String _ s' => includes s' needle
  end.

(** White space removed by [trim], restricted to the ASCII range. *)
Definition isWhiteSpace (c : ascii) : bool :=
  let n := nat_of_ascii c in
  ((9 <=? n)%nat && (n <=? 13)%nat) || (n =? 32)%nat.

Fixpoint trimStart (s : string) : string :=
  match s with
  | EmptyString => EmptyString
  | String c s' => if isWhiteSpace c then trimStart s' else s
  end.

Fixpoint trimEnd (s : string) : string :=
  match s with
  | EmptyString => EmptyString
  | String c s' =>
      match trimEnd s' with
      | EmptyString => if isWhiteSpace c then EmptyString else String c EmptyString
      | t => String c t
      end
  end.

Definition trim (s : string) : string := trimEnd (trimStart s).

(** [s.split(sep)] for a non-empty separator.  [skip] counts the characters
    of a separator occurrence that are still to be consumed, [cur] is the
    piece being accumulated. *)
Fixpoint splitFrom (sep : string) (skip : nat) (cur s : string) : list string :=
  match s with
  | EmptyString => [cur]
  | String c s' =>
      match skip with
      | S k => splitFrom sep k cur s'
      | O =>
          if String.prefix sep s
          then cur :: splitFrom sep (String.length sep - 1) EmptyString s'
          else splitFrom sep O (cur +:+ String c EmptyString) s'
      end
  end.

Definition split (s sep : string) : list string := splitFrom sep O EmptyString s.

(** [Math.ceil(x / d)] on integers, for a positive divisor. *)
Definition ceilDiv (x d : Z) : Z := - ((- x) / d).

(** A [Date] object, as far as the script looks at it: the instant in
    milliseconds and the ISO-8601 rendering the runtime gives it. *)
Record Date := { getTime : Z; toISOString : string }.

(** The outcome of running a piece of the script. *)
Inductive Completion (A : Type) : Type :=
  | Normal (a : A)
  | Throw (error : string)
  | Pending.
Arguments Normal {A} a.
Arguments Throw {A} error.
Arguments Pending {A}.

End Js.

Import Js.

Definition newline : string := String (ascii_of_nat 10) EmptyString.

(** ** Configuration

    The fields [name], [url] and [responseTime] also name properties of
    the probe results, and [services] one of the metrics object: on the
    configuration side they are [svc_name], [svc_url], [responseTimeLimit]
    and [cfg_services]. *)

Record ServiceTarget := {
  svc_name : string;
  svc_url : string;
  expectedStatus : Z;
  timeout : Z
}.

Record Thresholds := {
  responseTimeLimit : Z;
  certExpirationDays : Z
}.

Record Config := {
  cfg_services : list ServiceTarget;
  thresholds : Thresholds;
  metricsFile : string;
  checkInterval : Z
}.

(** The configuration object of the script, as written in the source. *)
Definition config : Config := {|
  cfg_services := [
    {| svc_name := "Traefik Dashboard";
       svc_url := "https://traefik.propertyapp.duckdns.org/dashboard/";
       expectedStatus := 200; timeout := 5000 |};
    {| svc_name := "NASA App";
       svc_url := "https://majortomtogroundcontrol.duckdns.org";
       expectedStatus := 200; timeout := 5000 |};
    {| svc_name := "Property App Frontend";
       svc_url := "https://propertyapp.duckdns.org";
       expectedStatus := 200; timeout := 5000 |};
    {| svc_name := "Property App API";
       svc_url := "https://propertyapp.duckdns.org/api/repair/users";
       expectedStatus := 200; timeout := 5000 |} ];
  thresholds := {| responseTimeLimit := 1500; certExpirationDays := 14 |};
  metricsFile := "./monitoring_metrics.json";
  checkInterval := 300000
|}.

(** ** Probe results and alerts *)

Inductive Status := HEALTHY | UNHEALTHY | TIMEOUT | ERROR.

Definition statusName (s : Status) : string :=
  match s with
  | HEALTHY => "HEALTHY"
  | UNHEALTHY => "UNHEALTHY"
  | TIMEOUT => "TIMEOUT"
  | ERROR => "ERROR"
  end.

Record CertificateInfo := {
  issuer : string;
  expirationDate : string;
  daysToExpiration : Z
}.

(** The [certificate] property of a result: not written at all, written as
    [null], or written as an object. *)
Inductive CertField :=
  | CertMissing
  | CertNull
  | Cert (info : CertificateInfo).

(** The object a probe resolves to.  A property the object literal does not
    list is [None] (it reads as [undefined]). *)
Record ProbeResult := {
  name : string;
  url : string;
  status : Status;
  statusCode : option Z;
  responseTime : option Z;
  certificate : CertField;
  error : option string;
  timestamp : option string
}.

Inductive Level := HIGH | MEDIUM.

Record Alert := {
  level : Level;
  service : string;
  message : string;
  alertTimestamp : string
}.

(** ** The probe: [checkService] *)

(** What [res.socket.getPeerCertificate()] hands back.  [valid_to] is the
    date the runtime parses the field to, [None] when the field is missing or
    empty; [issuerCN] is [cert.issuer?.CN]. *)
Record PeerCertificate := {
  valid_to : option Date;
  issuerCN : option string
}.

(** What can happen to one request.  [peer] is [None] when the response has
    no socket, the socket has no [getPeerCertificate], or it returns nothing. *)
Inductive Event :=
  | TimerFired
  | Response (code : Z) (peer : option PeerCertificate)
  | RequestError (msg : string).

(** The promise under construction: whether the timer is still armed, and
    the value the promise was resolved with, if any. *)
Record Probe := {
  timerArmed : bool;
  settled : option ProbeResult
}.

(** [resolve(r)]: only the first call settles the promise. *)
Definition resolve (r : ProbeResult) (p : Probe) : Probe :=
  match settled p with
  | Some _ => p
  | None => {| timerArmed := timerArmed p; settled := Some r |}
  end.

Definition clearTimeout (p : Probe) : Probe :=
  {| timerArmed := false; settled := settled p |}.

(** ** Containers *)

(** What [exec] reports for [docker ps]. *)
Inductive ExecResult :=
  | ExecError (msg : string)
  | ExecOk (stdout : string).

(** The object [checkContainers] resolves to: [{ error }] or
    [{ containers }].  A container whose line has no [": "] gets the status
    [undefined], here [None]. *)
Inductive ContainerStatus :=
  | InspectionError (msg : string)
  | Containers (containers : gmap string (option string)).

Definition typeErrorIncludes : string :=
  "TypeError: Cannot read properties of undefined (reading 'includes')".

(** [l.forEach(f)] for a body that may throw. *)
Fixpoint forEachM {A S : Type} (f : S -> A -> Completion S) (l : list A) (s : S)
    : Completion S :=
  match l with
  | [] => Normal s
  | x :: l' =>
      match f s x with
      | Normal s' => forEachM f l' s'
      | Throw e => Throw e
      | Pending => Pending
      end
  end.

(** ** The metrics store *)

(** The [metrics] object.  [lastCheck] is [null] until the first cycle;
    [containerStatus] is [undefined] when the inspection failed. *)
Record Metrics := {
  lastCheck : option string;
  services : gmap string ProbeResult;
  containerStatus : option (gmap string (option string));
  alerts : list Alert
}.

(** Lines 63-67. *)
Definition defaultMetrics : Metrics := {|
  lastCheck := None;
  services := ∅;
  containerStatus := None;
  alerts := []
|}.

(** A JSON document, as [JSON.parse] returns it and [JSON.stringify] prints
    it.  The text layer is left to the runtime: a file that parses holds a
    document.  The properties of an object are listed once each. *)
#[warnings="-register-all"] Inductive JSON :=
  | JNull
  | JBool (b : bool)
  | JNum (z : Z)
  | JStr (s : string)
  | JArr (items : list JSON)
  | JObj (props : list (string * JSON)).

(** The metrics file on disk. *)
Inductive File :=
  | FileAbsent
  | FileCorrupt
  | FileJson (doc : JSON).

(** *** [JSON.stringify]: a property whose value is [undefined] is left out *)

Definition optProp {A : Type} (key : string) (enc : A -> JSON) (v : option A)
    : list (string * JSON) :=
  match v with
  | Some a => [(key, enc a)]
  | None => []
  end.

Definition encodeCertificate (c : CertificateInfo) : JSON :=
  JObj [("issuer", JStr (issuer c));
        ("expirationDate", JStr (expirationDate c));
        ("daysToExpiration", JNum (daysToExpiration c))].

Definition encodeCertField (c : CertField) : list (string * JSON) :=
  match c with
  | CertMissing => []
  | CertNull => [("certificate", JNull)]
  | Cert info => [("certificate", encodeCertificate info)]
  end.

Definition encodeResult (r : ProbeResult) : JSON :=
  JObj ([("name", JStr (name r));
         ("url", JStr (url r));
         ("status", JStr (statusName (status r)))]
        ++ optProp "statusCode" JNum (statusCode r)
        ++ optProp "responseTime" JNum (responseTime r)
        ++ encodeCertField (certificate r)
        ++ optProp "error" JStr (error r)
        ++ optProp "timestamp" JStr (timestamp r)).

Definition levelName (l : Level) : string :=
  match l with
  | HIGH => "HIGH"
  | MEDIUM => "MEDIUM"
  end.

Definition encodeAlert (a : Alert) : JSON :=
  JObj [("level", JStr (levelName (level a)));
        ("service", JStr (service a));
        ("message", JStr (message a));
        ("timestamp", JStr (alertTimestamp a))].

Definition encodeEntries {A : Type} (enc : A -> JSON) (l : list (string * A))
    : list (string * JSON) :=
  (fun e => (e.1, enc e.2)) <$> l.

(** The container statuses that are strings; the others are not printed. *)
Definition definedEntries (l : list (string * option string))
    : list (string * string) :=
  omap (fun e => match e.2 with
                 | Some s => Some (e.1, s)
                 | None => None
                 end) l.

Definition encodeContainers (c : gmap string (option string)) : JSON :=
  JObj (encodeEntries JStr (definedEntries (map_to_list c))).

Definition encodeMetrics (m : Metrics) : JSON :=
  JObj ([("lastCheck", match lastCheck m with
                       | Some t => JStr t
                       | None => JNull
                       end);
         ("services", JObj (encodeEntries encodeResult (map_to_list (services m))));
         ("alerts", JArr (encodeAlert <$> alerts m))]
        ++ optProp "containerStatus" encodeContainers (containerStatus m)).

(** *** Reading a parsed document back as a snapshot

    [JSON.parse] hands the script an untyped object.  The functions below
    give the typed view of a document that has the schema of the metrics
    file: each field is the property of that name, an absent property reads
    as [undefined].  Properties outside the schema and the order of the
    properties are not part of the view. *)

Fixpoint prop (key : string) (props : list (string * JSON)) : option JSON :=
  match props with
  | [] => None
  | (k, v) :: rest => if String.eqb k key then Some v else prop key rest
  end.

Definition asString (j : JSON) : option string :=
  match j with
  | JStr s => Some s
  | _ => None
  end.

Definition asNumber (j : JSON) : option Z :=
  match j with
  | JNum z => Some z
  | _ => None
  end.

(** An optional property: absent is [Some None], present with the right
    type is [Some (Some _)], present with another type does not fit. *)
Definition optional {A : Type} (dec : JSON -> option A) (j : option JSON)
    : option (option A) :=
  match j with
  | None => Some None
  | Some v => Some <$> dec v
  end.

Definition decodeStatus (s : string) : option Status :=
  if String.eqb s "HEALTHY" then Some HEALTHY
  else if String.eqb s "UNHEALTHY" then Some UNHEALTHY
  else if String.eqb s "TIMEOUT" then Some TIMEOUT
  else if String.eqb s "ERROR" then Some ERROR
  else None.

Definition decodeLevel (s : string) : option Level :=
  if String.eqb s "HIGH" then Some HIGH
  else if String.eqb s "MEDIUM" then Some MEDIUM
  else None.

Definition decodeCertificate (j : JSON) : option CertificateInfo :=
  match j with
  | JObj props =>
      i ← prop "issuer" props ≫= asString;
      e ← prop "expirationDate" props ≫= asString;
      d ← prop "daysToExpiration" props ≫= asNumber;
      Some {| issuer := i; expirationDate := e; daysToExpiration := d |}
  | _ => None
  end.

Definition decodeCertField (j : option JSON) : option CertField :=
  match j with
  | None => Some CertMissing
  | Some JNull => Some CertNull
  | Some v => Cert <$> decodeCertificate v
  end.

Definition decodeResult (j : JSON) : option ProbeResult :=
  match j with
  | JObj props =>
      n ← prop "name" props ≫= asString;
      u ← prop "url" props ≫= asString;
      s ← (prop "status" props ≫= asString) ≫= decodeStatus;
      sc ← optional asNumber (prop "statusCode" props);
      rt ← optional asNumber (prop "responseTime" props);
      c ← decodeCertField (prop "certificate" props);
      e ← optional asString (prop "error" props);
      t ← optional asString (prop "timestamp" props);
      Some {| name := n; url := u; status := s; statusCode := sc;
              responseTime := rt; certificate := c; error := e;
              timestamp := t |}
  | _ => None
  end.

Definition decodeAlert (j : JSON) : option Alert :=
  match j with
  | JObj props =>
      l ← (prop "level" props ≫= asString) ≫= decodeLevel;
      s ← prop "service" props ≫= asString;
      m ← prop "message" props ≫= asString;
      t ← prop "timestamp" props ≫= asString;
      Some {| level := l; service := s; message := m; alertTimestamp := t |}
  | _ => None
  end.

Definition decodeEntries {A : Type} (dec : JSON -> option A)
    (l : list (string * JSON)) : option (list (string * A)) :=
  mapM (fun e => (fun a => (e.1, a)) <$> dec e.2) l.

Definition decodeObject {A : Type} (dec : JSON -> option A) (j : JSON)
    : option (gmap string A) :=
  match j with
  | JObj props => list_to_map <$> decodeEntries dec props
  | _ => None
  end.

Definition decodeLastCheck (j : option JSON) : option (option string) :=
  match j with
  | None => Some None
  | Some JNull => Some None
  | Some v => Some <$> asString v
  end.

Definition decodeAlerts (j : JSON) : option (list Alert) :=
  match j with
  | JArr items => mapM decodeAlert items
  | _ => None
  end.

Definition decodeMetrics (j : JSON) : option Metrics :=
  match j with
  | JObj props =>
      lc ← decodeLastCheck (prop "lastCheck" props);
      sv ← prop "services" props ≫= decodeObject decodeResult;
      al ← prop "alerts" props ≫= decodeAlerts;
      cs ← optional (decodeObject (fun v => Some <$> asString v))
                    (prop "containerStatus" props);
      Some {| lastCheck := lc; services := sv; containerStatus := cs;
              alerts := al |}
  | _ => None
  end.

(** What the start-up code leaves in [metrics]: a snapshot, or a parsed
    document that is not one.  The script would carry on with the latter;
    its behaviour on such a value is outside this development. *)
Inductive Loaded :=
  | Snapshot (m : Metrics)
  | Foreign (doc : JSON).

(** Lines 63-76: [metrics] keeps its initial value when the file does not
    exist and when reading or parsing throws (the [catch] only logs). *)
Definition load (f : File) : Loaded :=
  match f with
  | FileAbsent => Snapshot defaultMetrics
  | FileCorrupt => Snapshot defaultMetrics
  | FileJson doc =>
      match decodeMetrics doc with
      | Some m => Snapshot m
      | None => Foreign doc
      end
  end.

(** Line 224: [fs.writeFileSync(config.metricsFile, JSON.stringify(metrics, null, 2))]. *)
Definition save (m : Metrics) (f : File) : File := FileJson (encodeMetrics m).

Section Monitoring.

Variable cfg : Config.
Variable now : nat -> Date.

(** [cert.issuer?.CN || 'Unknown']. *)
Definition issuerOrUnknown (cn : option string) : string :=
  match cn with
  | Some (String c s) => String c s
  | _ => "Unknown"
  end.

(** Lines 100-113: the certificate block of the response callback.  Reads the
    clock once when a certificate with a [valid_to] is there. *)
Definition certInfoOf (svc : ServiceTarget) (peer : option PeerCertificate)
    (k : nat) : CertField * nat :=
  if startsWith (svc_url svc) "https" then
    match peer with
    | Some cert =>
        match valid_to cert with
        | Some expiration =>
            let days :=
              ceilDiv (getTime expiration - getTime (now k)) (1000 * 60 * 60 * 24) in
            (Cert {| issuer := issuerOrUnknown (issuerCN cert);
                     expirationDate := toISOString expiration;
                     daysToExpiration := days |}, S k)
        | None => (CertNull, k)
        end
    | None => (CertNull, k)
    end
  else (CertNull, k).

(** Lines 85-93: the timer callback. *)
Definition onTimeout (svc : ServiceTarget) (p : Probe) : Probe :=
  if timerArmed p then
    resolve {| name := svc_name svc;
               url := svc_url svc;
               status := TIMEOUT;
               statusCode := None;
               responseTime := Some (responseTimeLimit (thresholds cfg) + 1);
               certificate := CertMissing;
               error := Some "Request timed out";
               timestamp := None |}
            {| timerArmed := false; settled := settled p |}
  else p.

(** Lines 95-126: the response callback. *)
Definition onResponse (svc : ServiceTarget) (startTime : Z) (code : Z)
    (peer : option PeerCertificate) (p : Probe) (k : nat) : Probe * nat :=
  let p1 := clearTimeout p in
  let elapsed := getTime (now k) - startTime in
  let '(certInfo, k1) := certInfoOf svc peer (S k) in
  let st := if code =? expectedStatus svc then HEALTHY else UNHEALTHY in
  (resolve {| name := svc_name svc;
              url := svc_url svc;
              status := st;
              statusCode := Some code;
              responseTime := Some elapsed;
              certificate := certInfo;
              error := None;
              timestamp := Some (toISOString (now k1)) |} p1,
   S k1).

(** Lines 128-137: the error listener. *)
Definition onError (svc : ServiceTarget) (msg : string) (p : Probe) (k : nat)
    : Probe * nat :=
  (resolve {| name := svc_name svc;
              url := svc_url svc;
              status := ERROR;
              statusCode := None;
              responseTime := None;
              certificate := CertMissing;
              error := Some msg;
              timestamp := Some (toISOString (now k)) |} (clearTimeout p),
   S k).

Definition deliver (svc : ServiceTarget) (startTime : Z) (e : Event)
    (st : Probe * nat) : Probe * nat :=
  let '(p, k) := st in
  match e with
  | TimerFired => (onTimeout svc p, k)
  | Response code peer => onResponse svc startTime code peer p k
  | RequestError msg => onError svc msg p k
  end.

(** [checkService(service)]: the value the returned promise settles to under
    the given events, [None] if it never settles, and the clock counter. *)
Definition checkService (svc : ServiceTarget) (events : list Event) (k : nat)
    : option ProbeResult * nat :=
  let startTime := getTime (now k) in
  let '(p, k') :=
    fold_left (fun st e => deliver svc startTime e st) events
              ({| timerArmed := true; settled := None |}, S k) in
  (settled p, k').

(** ** The container inspector: [checkContainers] *)

(** Lines 141-158.  [docker] is what [exec] hands to the callback. *)
Definition checkContainers (docker : ExecResult) : ContainerStatus :=
  match docker with
  | ExecError msg => InspectionError msg
  | ExecOk stdout =>
      Containers
        (fold_left
           (fun (containers : gmap string (option string)) line =>
              let parts := split line ": " in
              <[ hd "undefined" parts := hd_error (tl parts) ]> containers)
           (split (trim stdout) newline) ∅)
  end.

(** ** The alert engine: [generateAlerts] *)

Definition push (a : Alert) (alerts : list Alert) : list Alert := alerts ++ [a].

(** [result.error || result.statusCode], rendered inside the template. *)
Definition errorOrStatusCode (result : ProbeResult) : string :=
  match error result with
  | Some (String c s) => String c s
  | _ =>
      match statusCode result with
      | Some code => numberToString code
      | None => "undefined"
      end
  end.

Definition statusMessage (result : ProbeResult) : string :=
  name result +:+ " is " +:+ statusName (status result) +:+ ": "
    +:+ errorOrStatusCode result.

Definition responseTimeMessage (result : ProbeResult) (t : Z) : string :=
  name result +:+ " response time (" +:+ numberToString t
    +:+ "ms) exceeds threshold ("
    +:+ numberToString (responseTimeLimit (thresholds cfg)) +:+ "ms)".

Definition certificateMessage (result : ProbeResult) (days : Z) : string :=
  "SSL Certificate for " +:+ name result +:+ " expires in "
    +:+ numberToString days +:+ " days".

Definition containerMessage (cname cstatus : string) : string :=
  "Container " +:+ cname +:+ " is not running: " +:+ cstatus.

(** Lines 164-171. *)
Definition statusRule (result : ProbeResult) (st : list Alert * nat)
    : list Alert * nat :=
  let '(alerts, k) := st in
  match status result with
  | HEALTHY => (alerts, k)
  | _ =>
      (push {| level := HIGH;
               service := name result;
               message := statusMessage result;
               alertTimestamp := toISOString (now k) |} alerts, S k)
  end.

(** Lines 172-179; [undefined > n] is false. *)
Definition responseTimeRule (result : ProbeResult) (st : list Alert * nat)
    : list Alert * nat :=
  let '(alerts, k) := st in
  match responseTime result with
  | Some t =>
      if responseTimeLimit (thresholds cfg) <? t then
        (push {| level := MEDIUM;
                 service := name result;
                 message := responseTimeMessage result t;
                 alertTimestamp := toISOString (now k) |} alerts, S k)
      else (alerts, k)
  | None => (alerts, k)
  end.

(** Lines 181-188. *)
Definition certificateRule (result : ProbeResult) (st : list Alert * nat)
    : list Alert * nat :=
  let '(alerts, k) := st in
  match certificate result with
  | Cert info =>
      if daysToExpiration info <? certExpirationDays (thresholds cfg) then
        (push {| level := HIGH;
                 service := name result;
                 message := certificateMessage result (daysToExpiration info);
                 alertTimestamp := toISOString (now k) |} alerts, S k)
      else (alerts, k)
  | _ => (alerts, k)
  end.

(** The body of the first [forEach]. *)
Definition serviceRules (st : list Alert * nat) (result : ProbeResult)
    : list Alert * nat :=
  certificateRule result (responseTimeRule result (statusRule result st)).

(** Lines 192-201: the body of the second [forEach].  [status.includes] on
    a status that is [undefined] throws. *)
Definition containerRule (st : list Alert * nat)
    (entry : string * option string) : Completion (list Alert * nat) :=
  let '(alerts, k) := st in
  match entry.2 with
  | None => Throw typeErrorIncludes
  | Some cstatus =>
      if includes cstatus "Up " then Normal (alerts, k)
      else
        Normal (push {| level := HIGH;
                        service := entry.1;
                        message := containerMessage entry.1 cstatus;
                        alertTimestamp := toISOString (now k) |} alerts, S k)
  end.

Definition generateAlerts (serviceResults : list ProbeResult)
    (containerStatus : ContainerStatus) (k : nat)
    : Completion (list Alert * nat) :=
  let st := fold_left serviceRules serviceResults ([], k) in
  match containerStatus with
  | Containers containers =>
      forEachM containerRule (map_to_list containers) st
  | InspectionError _ => Normal st
  end.

(** ** The scheduler: one cycle, [runCheck] *)

(** Line 210-211: the probes of one cycle.  [network i] is what happens to
    the request of the i-th configured service. *)
Fixpoint probeAll (svcs : list ServiceTarget) (network : nat -> list Event)
    (i : nat) (k : nat) : list (option ProbeResult) * nat :=
  match svcs with
  | [] => ([], k)
  | svc :: rest =>
      let '(r, k1) := checkService svc (network i) k in
      let '(rs, k2) := probeAll rest network (S i) k1 in
      (r :: rs, k2)
  end.

(** [await Promise.all(...)]: the results in the order of the services, once
    every promise is settled. *)
Definition awaitAll (rs : list (option ProbeResult)) : Completion (list ProbeResult) :=
  match mapM id rs with
  | Some results => Normal results
  | None => Pending
  end.

(** Lines 218-220. *)
Definition storeResults (results : list ProbeResult)
    (svcs : gmap string ProbeResult) : gmap string ProbeResult :=
  fold_left (fun m result => <[ name result := result ]> m) results svcs.

(** [containerStatus.containers]. *)
Definition containersOf (cs : ContainerStatus)
    : option (gmap string (option string)) :=
  match cs with
  | Containers c => Some c
  | InspectionError _ => None
  end.

(** Lines 207-224; the console report that follows changes nothing.  The
    result is the new [metrics], the metrics file and the clock counter. *)
Definition runCheck (metrics : Metrics) (file : File)
    (network : nat -> list Event) (docker : ExecResult) (k : nat)
    : Completion (Metrics * File * nat) :=
  let '(probes, k1) := probeAll (cfg_services cfg) network O (S k) in
  match awaitAll probes with
  | Normal serviceResults =>
      let status := checkContainers docker in
      match generateAlerts serviceResults status k1 with
      | Normal (currentAlerts, k2) =>
          let metrics' :=
            {| lastCheck := Some (toISOString (now k2));
               services := storeResults serviceResults (services metrics);
               containerStatus := containersOf status;
               alerts := currentAlerts |} in
          Normal (metrics', save metrics' file, S k2)
      | Throw e => Throw e
      | Pending => Pending
      end
  | Throw e => Throw e
  | Pending => Pending
  end.

End Monitoring.

(** ** The console report of a cycle *)

Definition escape : string := String (ascii_of_nat 27) EmptyString.
Definition green : string := escape +:+ "[32m".
Definition red : string := escape +:+ "[31m".
Definition yellow : string := escape +:+ "[33m".
Definition resetColor : string := escape +:+ "[0m".

(** [result.responseTime ? `(${result.responseTime}ms)` : ''] : a response
    time of zero is falsy. *)
Definition responseTimeSuffix (result : ProbeResult) : string :=
  match responseTime result with
  | Some 0 => ""
  | Some t => "(" +:+ numberToString t +:+ "ms)"
  | None => ""
  end.

(** Lines 227-239: the lines logged for one result. *)
Definition reportService (cfg : Config) (result : ProbeResult) : list string :=
  let statusColor :=
    match status result with
    | HEALTHY => green
    | _ => red
    end in
  [statusColor +:+ name result +:+ resetColor +:+ ": "
     +:+ statusName (status result) +:+ " " +:+ responseTimeSuffix result]
  ++ match certificate result with
     | Cert info =>
         let certColor :=
           if daysToExpiration info <? certExpirationDays (thresholds cfg)
           then yellow else green in
         ["  Certificate: Expires in " +:+ certColor
            +:+ numberToString (daysToExpiration info) +:+ resetColor +:+ " days"]
     | _ => []
     end
  ++ match error result with
     | Some (String c e) => ["  Error: " +:+ String c e]
     | _ => []
     end.

(** Lines 243-246: the line of one container; [status.includes] throws on a
    status that is [undefined]. *)
Definition reportContainer (lines : list string) (entry : string * option string)
    : Completion (list string) :=
  match entry.2 with
  | None => Throw typeErrorIncludes
  | Some cstatus =>
      let statusColor := if includes cstatus "Up " then green else red in
      Normal (lines ++ [statusColor +:+ entry.1 +:+ resetColor +:+ ": " +:+ cstatus])
  end.

(** Lines 253-256. *)
Definition reportAlert (a : Alert) : string :=
  let levelColor :=
    match level a with
    | HIGH => red
    | MEDIUM => yellow
    end in
  levelColor +:+ "[" +:+ levelName (level a) +:+ "]" +:+ resetColor +:+ " "
    +:+ service a +:+ ": " +:+ message a.

Definition operationalLine : string := newline +:+ "✅ All systems operational".

(** Lines 226-259: what [runCheck] logs after the metrics file is written,
    one string per [console.log]. *)
Definition report (cfg : Config) (serviceResults : list ProbeResult)
    (containerStatus : ContainerStatus) (currentAlerts : list Alert)
    : Completion (list string) :=
  let lines :=
    [newline +:+ "--- SERVICE STATUS ---"]
    ++ (serviceResults ≫= reportService cfg)
    ++ [newline +:+ "--- CONTAINER STATUS ---"] in
  let containerLines :=
    match containerStatus with
    | Containers containers => forEachM reportContainer (map_to_list containers) lines
    | InspectionError (String c e) => Normal (lines ++ ["Error: " +:+ String c e])
    | InspectionError EmptyString => Normal lines
    end in
  match containerLines with
  | Normal lines' =>
      Normal (lines' ++
              match currentAlerts with
              | [] => [operationalLine]
              | _ => (newline +:+ "--- ALERTS ---") :: (reportAlert <$> currentAlerts)
              end)
  | Throw e => Throw e
  | Pending => Pending
  end.

(** ** Vocabulary of the statements *)

(** What identifies an alert apart from the time it was raised. *)
Definition AlertKey : Type := Level * string * string.

Definition alertKey (a : Alert) : AlertKey := (level a, service a, message a).

Global Instance Level_eq_dec : EqDecision Level.
Proof. solve_decision. Defined.

Global Instance Status_eq_dec : EqDecision Status.
Proof. solve_decision. Defined.

(** How many alerts of a list carry the given level, service and message. *)
Definition occurrences (key : AlertKey) (alerts : list Alert) : nat :=
  length (filter (fun a => alertKey a = key) alerts).

(** The alert engine was given container statuses that are all strings, or
    the error of a failed inspection. *)
Definition statusesDefined (cs : ContainerStatus) : Prop :=
  match cs with
  | Containers c => Forall (fun e : string * option string => is_Some e.2) (map_to_list c)
  | InspectionError _ => True
  end.

(** [status] is one of the three failing classifications. *)
Definition failing (s : Status) : Prop := s = ERROR \/ s = UNHEALTHY \/ s = TIMEOUT.

(** A status a container has when read by name: [undefined] both when the
    name is not listed and when its status is [undefined]. *)
Definition readStatus (c : gmap string (option string)) (cname : string)
    : option string :=
  c !! cname ≫= id.

(** Two snapshots that no property read tells apart. *)
Definition equivalent (m1 m2 : Metrics) : Prop :=
  lastCheck m1 = lastCheck m2 /\
  services m1 = services m2 /\
  alerts m1 = alerts m2 /\
  match containerStatus m1, containerStatus m2 with
  | Some c1, Some c2 => forall cname, readStatus c1 cname = readStatus c2 cname
  | None, None => True
  | _, _ => False
  end.

(** The level, service and message of the alerts each rule raises, without
    the clock: the rules of [generateAlerts] are shown below to raise exactly
    these, in this order. *)
Definition statusKeys (r : ProbeResult) : list AlertKey :=
  match status r with
  | HEALTHY => []
  | _ => [(HIGH, name r, statusMessage r)]
  end.

Definition responseTimeKeys (cfg : Config) (r : ProbeResult) : list AlertKey :=
  match responseTime r with
  | Some t =>
      if responseTimeLimit (thresholds cfg) <? t
      then [(MEDIUM, name r, responseTimeMessage cfg r t)]
      else []
  | None => []
  end.

Definition certificateKeys (cfg : Config) (r : ProbeResult) : list AlertKey :=
  match certificate r with
  | Cert info =>
      if daysToExpiration info <? certExpirationDays (thresholds cfg)
      then [(HIGH, name r, certificateMessage r (daysToExpiration info))]
      else []
  | _ => []
  end.

Definition serviceKeys (cfg : Config) (r : ProbeResult) : list AlertKey :=
  statusKeys r ++ responseTimeKeys cfg r ++ certificateKeys cfg r.

Definition containerKeys (e : string * option string) : list AlertKey :=
  match e.2 with
  | Some cstatus =>
      if includes cstatus "Up " then []
      else [(HIGH, e.1, containerMessage e.1 cstatus)]
  | None => []
  end.

Definition containerKeysOf (cs : ContainerStatus) : list AlertKey :=
  match cs with
  | Containers c => map_to_list c ≫= containerKeys
  | InspectionError _ => []
  end.

Definition count (key : AlertKey) (keys : list AlertKey) : nat :=
  length (filter (fun x => x = key) keys).

(** A status alert: an alert for service [n] whose message has the form of
    the first rule. *)
Definition isStatusAlert (n : string) (a : Alert) : Prop :=
  service a = n /\
  exists (s : Status) (detail : string),
    message a = n +:+ " is " +:+ statusName s +:+ ": " +:+ detail.

(** An alert on the certificate of service [n]: level HIGH, that service,
    and a message that starts with "SSL Certificate for {n}". *)
Definition isCertificateKey (n : string) (key : AlertKey) : Prop :=
  key.1.1 = HIGH /\ key.1.2 = n /\
  String.prefix ("SSL Certificate for " +:+ n) key.2 = true.

Definition isCertificateAlert (n : string) (a : Alert) : Prop :=
  isCertificateKey n (alertKey a).

Global Instance isCertificateKey_dec (n : string) (key : AlertKey) :
  Decision (isCertificateKey n key).
Proof. unfold isCertificateKey. apply _. Defined.

Global Instance isCertificateAlert_dec (n : string) (a : Alert) :
  Decision (isCertificateAlert n a).
Proof. unfold isCertificateAlert. apply _. Defined.

(** The statuses that are printed, as [(name, Some status)] pairs. *)
Definition printedStatuses (c : gmap string (option string))
    : list (string * option string) :=
  (fun e : string * string => (e.1, Some e.2)) <$> definedEntries (map_to_list c).

(** A result on which none of the three service rules fires. *)
Definition quiet (cfg : Config) (r : ProbeResult) : Prop :=
  status r = HEALTHY /\
  (forall t, responseTime r = Some t -> t <= responseTimeLimit (thresholds cfg)) /\
  (forall info, certificate r = Cert info ->
                certExpirationDays (thresholds cfg) <= daysToExpiration info).

(** Every container of the mapping that has a status is up. *)
Definition allUp (cs : ContainerStatus) : Prop :=
  match cs with
  | Containers c =>
      forall cname cstatus,
        c !! cname = Some (Some cstatus) -> includes cstatus "Up " = true
  | InspectionError _ => True
  end.

(** The alerts of [new] bear the successive clock readings from the [k]-th
    on. *)
Definition stamped (now : nat -> Date) (k : nat) (new : list Alert) : Prop :=
  forall i a, new !! i = Some a -> alertTimestamp a = toISOString (now (k + i)%nat).

(** An alert of the response-time rule for service [n]: only that rule
    raises MEDIUM alerts. *)
Definition isResponseTimeKey (n : string) (key : AlertKey) : Prop :=
  key.1.1 = MEDIUM /\ key.1.2 = n.

Definition isResponseTimeAlert (n : string) (a : Alert) : Prop :=
  isResponseTimeKey n (alertKey a).

Global Instance isResponseTimeKey_dec (n : string) (key : AlertKey) :
  Decision (isResponseTimeKey n key).
Proof. unfold isResponseTimeKey. apply _. Defined.

Global Instance isResponseTimeAlert_dec (n : string) (a : Alert) :
  Decision (isResponseTimeAlert n a).
Proof. unfold isResponseTimeAlert. apply _. Defined.

(** What one step of a [forEach] body does to the accumulator: it appends
    freshly stamped alerts and reads the clock once for each. *)
Definition appends (now : nat -> Date)
    (step : list Alert * nat -> list Alert * nat) (k : nat) : Prop :=
  exists new,
    (forall acc, step (acc, k) = (acc ++ new, (k + length new)%nat)) /\
    stamped now k new.

(** What [docker ps --format "{{.Names}}: {{.Status}}"] prints for a list of
    containers: one line per container, each ended by a line feed. *)
Definition lineOf (e : string * string) : string := e.1 +:+ ": " +:+ e.2.

Fixpoint dockerOutput (entries : list (string * string)) : string :=
  match entries with
  | [] => EmptyString
  | e :: rest => lineOf e +:+ newline +:+ dockerOutput rest
  end.

(** Lines joined by line feeds, with none after the last. *)
Fixpoint joinLines (lines : list string) : string :=
  match lines with
  | [] => EmptyString
  | [l] => l
  | l :: rest => l +:+ newline +:+ joinLines rest
  end.

(** The first character is no white space. *)
Definition startsClean (s : string) : Prop :=
  match s with
  | EmptyString => True
  | String c _ => isWhiteSpace c = false
  end.

(** A name or status as docker prints it: not empty, on one line, with no
    white space at either end. *)
Definition tidy (s : string) : Prop :=
  s <> EmptyString /\ startsClean s /\ trimEnd s = s /\ includes s newline = false.

(** The part of a status that [line.split(': ')] puts in second place: the
    text before the first [": "] of the status. *)
Definition keptStatus (cstatus : string) : string :=
  hd cstatus (split cstatus ": ").

(** *** Sample inputs

    A clock, two services of the configuration, and what the network and
    [docker ps] may do, used where a statement is run on a concrete input. *)

Definition sampleClock (k : nat) : Date :=
  {| getTime := 1000 * Z.of_nat k; toISOString := "2025-06-01T12:00:00.000Z" |}.

Definition nasaApp : ServiceTarget :=
  {| svc_name := "NASA App";
     svc_url := "https://majortomtogroundcontrol.duckdns.org";
     expectedStatus := 200; timeout := 5000 |}.

Definition allAnswer200 (i : nat) : list Event := [Response 200 None].

Definition webAndDb : gmap string (option string) :=
  <[ "web" := Some "Up 2 hours" ]>
    (<[ "db" := Some "Exited (1) 3 minutes ago" ]> ∅).

Definition notFound : ProbeResult :=
  {| name := "NASA App";
     url := "https://majortomtogroundcontrol.duckdns.org";
     status := UNHEALTHY;
     statusCode := Some 404;
     responseTime := Some 1000;
     certificate := CertNull;
     error := None;
     timestamp := Some "2025-06-01T12:00:00.000Z" |}.

Definition withCertificate (days : Z) : ProbeResult :=
  {| name := "NASA App";
     url := "https://majortomtogroundcontrol.duckdns.org";
     status := HEALTHY;
     statusCode := Some 200;
     responseTime := Some 120;
     certificate := Cert {| issuer := "R3";
                            expirationDate := "2025-06-06T12:00:00.000Z";
                            daysToExpiration := days |};
     error := None;
     timestamp := Some "2025-06-01T12:00:00.000Z" |}.

Definition slowButHealthy : ProbeResult :=
  {| name := "Property App API";
     url := "https://propertyapp.duckdns.org/api/repair/users";
     status := HEALTHY;
     statusCode := Some 200;
     responseTime := Some 2300;
     certificate := CertNull;
     error := None;
     timestamp := Some "2025-06-01T12:00:00.000Z" |}.

Definition sampleCertificate : PeerCertificate :=
  {| valid_to := Some {| getTime := 400000000;
                         toISOString := "2025-06-06T12:00:00.000Z" |};
     issuerCN := Some "R3" |}.

Definition sampleListing : list (string * string) :=
  [("web", "Up 2 hours"); ("db", "Exited (1) 3 minutes ago")].

(** ** Facts about strings *)

Lemma sapp_nil_l (s : string) : "" +:+ s = s.
Proof. reflexivity. Qed.

Lemma sapp_cons (c : ascii) (s t : string) : String c s +:+ t = String c (s +:+ t).
Proof. reflexivity. Qed.

Lemma sapp_nil_r (s : string) : s +:+ "" = s.
Proof. induction s as [|c s IH]; [done|]. by rewrite sapp_cons, IH. Qed.

Lemma sapp_assoc (s t u : string) : (s +:+ t) +:+ u = s +:+ t +:+ u.
Proof. induction s as [|c s IH]; [done|]. by rewrite !sapp_cons, IH. Qed.

Lemma sapp_length (s t : string) :
  String.length (s +:+ t) = (String.length s + String.length t)%nat.
Proof.
  induction s as [|c s IH]; [done|]. rewrite sapp_cons. simpl. by rewrite IH.
Qed.

(** Two ways of cutting one string: one of the left parts extends the other. *)
Lemma sapp_split (x y a b : string) :
  x +:+ a = y +:+ b ->
  (exists z, y = x +:+ z /\ a = z +:+ b) \/ (exists z, x = y +:+ z /\ b = z +:+ a).
Proof.
  revert y. induction x as [|c x IH]; intros y H.
  - left. exists y. by rewrite sapp_nil_l in *.
  - destruct y as [|d y].
    + right. exists (String c x). by rewrite sapp_nil_l in *.
    + rewrite !sapp_cons in H. injection H as -> H.
      destruct (IH _ H) as [(z & -> & ->)|(z & -> & ->)]; [left|right]; by exists z.
Qed.

(** If [N] followed by [a] reads the same as [P] followed by [N], then [N]
    is a run of copies of [P] ended by a proper prefix [N0] of [P], and [a]
    goes on with the rest of [P] and with [N0] again. *)
Lemma overlap (P : string) (n : nat) :
  P <> "" -> forall N a b,
  (String.length N <= n)%nat -> N +:+ a = P +:+ N +:+ b ->
  exists N0 q c, P = N0 +:+ q /\ q <> "" /\ a = q +:+ N0 +:+ c.
Proof.
  intros HP. induction n as [|n IH]; intros N a b Hlen H.
  - destruct N; [|simpl in Hlen; lia].
    exists "", P, b. by rewrite !sapp_nil_l in *.
  - destruct (sapp_split _ _ _ _ H) as [(z & HPz & Ha)|(z & HN & Hb)].
    + destruct z as [|c z].
      * rewrite sapp_nil_r in HPz. rewrite sapp_nil_l in Ha. subst.
        exists "", N, b. by rewrite !sapp_nil_l.
      * by exists N, (String c z), b.
    + apply (IH z a b).
      * subst N. rewrite sapp_length in Hlen.
        destruct P; [done|]. simpl in Hlen. lia.
      * subst N. by rewrite sapp_assoc in Hb.
Qed.

(** Splits a literal against [n +:+ _] for every length of [n]. *)
Ltac peel H :=
  repeat match type of H with
  | String _ _ = ?n +:+ _ =>
      destruct n as [|? n];
      [ rewrite sapp_nil_l in H
      | rewrite sapp_cons in H; injection H as ? H ]
  | EmptyString = ?n +:+ _ =>
      destruct n as [|? n];
      [ rewrite sapp_nil_l in H
      | rewrite sapp_cons in H; discriminate H ]
  end.

Ltac no_overlap N H :=
  apply (overlap _ (String.length N)) in H as (?N0 & ?q & ?c & HP & Hq & Ha);
  [ peel HP; subst; try done; rewrite ?sapp_cons, ?sapp_nil_l in Ha; discriminate Ha
  | done | lia ].

(** The message of the status rule is never one of a container alert. *)
Lemma status_not_container (N x y : string) :
  N +:+ " is " +:+ x <> "Container " +:+ N +:+ y.
Proof. intros H. no_overlap N H. Qed.

(** ... nor one of a certificate alert. *)
Lemma status_not_certificate (N x y : string) :
  N +:+ " is " +:+ x <> "SSL Certificate for " +:+ N +:+ y.
Proof. intros H. no_overlap N H. Qed.

Lemma status_not_response_time (N x y : string) :
  N +:+ " is " +:+ x <> N +:+ " response time (" +:+ y.
Proof. intros H%(inj (String.app N)). discriminate H. Qed.

(** ** Counting alerts *)

Lemma occurrences_count (key : AlertKey) (alerts : list Alert) :
  occurrences key alerts = count key (alertKey <$> alerts).
Proof.
  unfold occurrences, count. induction alerts as [|a alerts IH]; [done|].
  rewrite fmap_cons, !filter_cons.
  destruct (decide (alertKey a = key)); simpl; by rewrite IH.
Qed.

Lemma count_app (key : AlertKey) (l1 l2 : list AlertKey) :
  count key (l1 ++ l2) = (count key l1 + count key l2)%nat.
Proof. unfold count. by rewrite filter_app, length_app. Qed.

Lemma count_singleton (key x : AlertKey) :
  count key [x] = if decide (x = key) then 1%nat else 0%nat.
Proof. unfold count. rewrite filter_cons. by destruct (decide (x = key)). Qed.

Lemma count_bind_zero {A : Type} (key : AlertKey) (f : A -> list AlertKey)
    (l : list A) :
  (forall x, x ∈ l -> count key (f x) = 0%nat) -> count key (l ≫= f) = 0%nat.
Proof.
  induction l as [|x l IH]; intros H; [done|].
  rewrite bind_cons, count_app, H, IH; [done| |by left].
  intros y Hy. apply H. by right.
Qed.

(** ** The alert engine, rule by rule *)

Section Engine.

Variable cfg : Config.
Variable now : nat -> Date.

Lemma statusRule_keys (r : ProbeResult) (alerts : list Alert) (k : nat) :
  exists alerts' k', statusRule now r (alerts, k) = (alerts', k') /\
    alertKey <$> alerts' = (alertKey <$> alerts) ++ statusKeys r.
Proof.
  unfold statusRule, statusKeys, push.
  destruct (status r); eexists _, _; (split; [reflexivity|]);
    by rewrite ?fmap_app, ?app_nil_r.
Qed.

Lemma responseTimeRule_keys (r : ProbeResult) (alerts : list Alert) (k : nat) :
  exists alerts' k', responseTimeRule cfg now r (alerts, k) = (alerts', k') /\
    alertKey <$> alerts' = (alertKey <$> alerts) ++ responseTimeKeys cfg r.
Proof.
  unfold responseTimeRule, responseTimeKeys, push.
  destruct (responseTime r) as [t|];
    [destruct (responseTimeLimit (thresholds cfg) <? t)|];
    eexists _, _; (split; [reflexivity|]); by rewrite ?fmap_app, ?app_nil_r.
Qed.

Lemma certificateRule_keys (r : ProbeResult) (alerts : list Alert) (k : nat) :
  exists alerts' k', certificateRule cfg now r (alerts, k) = (alerts', k') /\
    alertKey <$> alerts' = (alertKey <$> alerts) ++ certificateKeys cfg r.
Proof.
  unfold certificateRule, certificateKeys, push.
  destruct (certificate r) as [| |info];
    [| |destruct (daysToExpiration info <? certExpirationDays (thresholds cfg))];
    eexists _, _; (split; [reflexivity|]); by rewrite ?fmap_app, ?app_nil_r.
Qed.

Lemma serviceRules_keys (r : ProbeResult) (alerts : list Alert) (k : nat) :
  exists alerts' k', serviceRules cfg now (alerts, k) r = (alerts', k') /\
    alertKey <$> alerts' = (alertKey <$> alerts) ++ serviceKeys cfg r.
Proof.
  unfold serviceRules, serviceKeys.
  destruct (statusRule_keys r alerts k) as (a1 & k1 & -> & E1).
  destruct (responseTimeRule_keys r a1 k1) as (a2 & k2 & -> & E2).
  destruct (certificateRule_keys r a2 k2) as (a3 & k3 & -> & E3).
  exists a3, k3. split; [done|]. by rewrite E3, E2, E1, <- !(assoc_L (++)).
Qed.

Lemma services_keys (results : list ProbeResult) (alerts : list Alert) (k : nat) :
  exists alerts' k',
    fold_left (serviceRules cfg now) results (alerts, k) = (alerts', k') /\
    alertKey <$> alerts' = (alertKey <$> alerts) ++ (results ≫= serviceKeys cfg).
Proof.
  revert alerts k. induction results as [|r results IH]; intros alerts k.
  - exists alerts, k. by rewrite app_nil_r.
  - rewrite bind_cons. simpl.
    destruct (serviceRules_keys r alerts k) as (a1 & k1 & -> & E1).
    destruct (IH a1 k1) as (a2 & k2 & -> & E2).
    exists a2, k2. split; [done|]. by rewrite E2, E1, <- (assoc_L (++)).
Qed.

Lemma containers_keys (entries : list (string * option string))
    (alerts : list Alert) (k : nat) :
  Forall (fun e : string * option string => is_Some e.2) entries ->
  exists alerts' k',
    forEachM (containerRule now) entries (alerts, k) = Normal (alerts', k') /\
    alertKey <$> alerts' = (alertKey <$> alerts) ++ (entries ≫= containerKeys).
Proof.
  intros H. revert alerts k.
  induction H as [|[cname cstatus] entries [s Hs] _ IH]; intros alerts k.
  - exists alerts, k. by rewrite app_nil_r.
  - simpl in Hs. subst cstatus. rewrite bind_cons.
    unfold containerKeys at 1. simpl.
    destruct (includes s "Up ").
    + destruct (IH alerts k) as (a2 & k2 & -> & E2). by exists a2, k2.
    + destruct (IH (push {| level := HIGH; service := cname;
                             message := containerMessage cname s;
                             alertTimestamp := toISOString (now k) |} alerts) (S k))
        as (a2 & k2 & -> & E2).
      exists a2, k2. split; [done|].
      rewrite E2. unfold push. by rewrite fmap_app, <- (assoc_L (++)).
Qed.

(** On statuses that are strings the engine returns, and its alerts are
    those of the service rules, result by result, then those of the
    container rule, container by container. *)
Lemma generateAlerts_keys (results : list ProbeResult) (cs : ContainerStatus)
    (k : nat) :
  statusesDefined cs ->
  exists alerts k',
    generateAlerts cfg now results cs k = Normal (alerts, k') /\
    alertKey <$> alerts = (results ≫= serviceKeys cfg) ++ containerKeysOf cs.
Proof.
  intros Hcs. unfold generateAlerts.
  destruct (services_keys results [] k) as (a1 & k1 & -> & E1).
  destruct cs as [msg|c]; simpl.
  - exists a1, k1. by rewrite E1, app_nil_r.
  - destruct (containers_keys (map_to_list c) a1 k1 Hcs) as (a2 & k2 & -> & E2).
    exists a2, k2. by rewrite E2, E1.
Qed.

End Engine.

(** ** The probe settles on the first event *)

Section ProbeFacts.

Variable cfg : Config.
Variable now : nat -> Date.

Lemma resolve_settled (r r0 : ProbeResult) (p : Probe) :
  settled p = Some r0 -> settled (resolve r p) = Some r0.
Proof. unfold resolve. intros H. by rewrite H. Qed.

(** A later event never changes the value a promise is settled with. *)
Lemma deliver_settled (svc : ServiceTarget) (t0 : Z) (e : Event) (p : Probe)
    (k : nat) (r0 : ProbeResult) :
  settled p = Some r0 -> settled (deliver cfg now svc t0 e (p, k)).1 = Some r0.
Proof.
  intros H. destruct e as [|code peer|msg]; simpl.
  - unfold onTimeout. destruct (timerArmed p); [|done]. by apply resolve_settled.
  - unfold onResponse. destruct (certInfoOf now svc peer (S k)) as [c k1]. simpl.
    by apply resolve_settled.
  - by apply resolve_settled.
Qed.

Lemma deliver_all_settled (svc : ServiceTarget) (t0 : Z) (events : list Event)
    (st : Probe * nat) (r0 : ProbeResult) :
  settled st.1 = Some r0 ->
  settled (fold_left (fun st e => deliver cfg now svc t0 e st) events st).1 = Some r0.
Proof.
  revert st. induction events as [|e events IH]; intros [p k] H; [done|].
  simpl. apply IH. by apply deliver_settled.
Qed.

Lemma checkService_first (svc : ServiceTarget) (e : Event) (rest : list Event)
    (k : nat) (r0 : ProbeResult) :
  settled (deliver cfg now svc (getTime (now k)) e
             ({| timerArmed := true; settled := None |}, S k)).1 = Some r0 ->
  (checkService cfg now svc (e :: rest) k).1 = Some r0.
Proof.
  intros H. unfold checkService. simpl fold_left.
  pose proof (deliver_all_settled svc (getTime (now k)) rest _ r0 H) as Hs.
  destruct (fold_left _ rest _) as [p k']. done.
Qed.

(** No event: the promise stays pending. *)
Lemma checkService_no_event (svc : ServiceTarget) (k : nat) :
  (checkService cfg now svc [] k).1 = None.
Proof. done. Qed.

(** The timer fires first: the value of lines 86-92. *)
Lemma checkService_timer_first (svc : ServiceTarget) (rest : list Event) (k : nat) :
  (checkService cfg now svc (TimerFired :: rest) k).1 =
  Some {| name := svc_name svc;
          url := svc_url svc;
          status := TIMEOUT;
          statusCode := None;
          responseTime := Some (responseTimeLimit (thresholds cfg) + 1);
          certificate := CertMissing;
          error := Some "Request timed out";
          timestamp := None |}.
Proof. by apply checkService_first. Qed.

(** The response comes first: the value of lines 117-125. *)
Lemma checkService_response_first (svc : ServiceTarget) (code : Z)
    (peer : option PeerCertificate) (rest : list Event) (k : nat) :
  exists elapsed cert stamp,
    (checkService cfg now svc (Response code peer :: rest) k).1 =
    Some {| name := svc_name svc;
            url := svc_url svc;
            status := if code =? expectedStatus svc then HEALTHY else UNHEALTHY;
            statusCode := Some code;
            responseTime := Some elapsed;
            certificate := cert;
            error := None;
            timestamp := Some stamp |}.
Proof.
  destruct (certInfoOf now svc peer (S (S k))) as [c k1] eqn:E.
  exists (getTime (now (S k)) - getTime (now k)), c, (toISOString (now k1)).
  apply checkService_first. simpl. unfold onResponse. by rewrite E.
Qed.

(** The request fails first: the value of lines 130-136. *)
Lemma checkService_error_first (svc : ServiceTarget) (msg : string)
    (rest : list Event) (k : nat) :
  (checkService cfg now svc (RequestError msg :: rest) k).1 =
  Some {| name := svc_name svc;
          url := svc_url svc;
          status := ERROR;
          statusCode := None;
          responseTime := None;
          certificate := CertMissing;
          error := Some msg;
          timestamp := Some (toISOString (now (S k))) |}.
Proof. by apply checkService_first. Qed.

(** Every value a probe settles with is one of the three above. *)
Lemma checkService_cases (svc : ServiceTarget) (events : list Event) (k : nat)
    (r : ProbeResult) :
  (checkService cfg now svc events k).1 = Some r ->
  name r = svc_name svc /\
  ((status r = TIMEOUT /\ timestamp r = None /\
    responseTime r = Some (responseTimeLimit (thresholds cfg) + 1)) \/
   ((status r = HEALTHY \/ status r = UNHEALTHY) /\ is_Some (timestamp r) /\
    is_Some (responseTime r)) \/
   (status r = ERROR /\ is_Some (timestamp r) /\ responseTime r = None)).
Proof.
  destruct events as [|[|code peer|msg] rest].
  - by rewrite checkService_no_event.
  - rewrite checkService_timer_first. intros [= <-]. simpl. auto.
  - destruct (checkService_response_first svc code peer rest k)
      as (el & c & st & ->).
    intros [= <-]. simpl. split; [done|]. right; left.
    split; [destruct (code =? expectedStatus svc); auto|]. by eauto.
  - rewrite checkService_error_first. intros [= <-]. simpl.
    split; [done|]. right; right. by eauto.
Qed.

End ProbeFacts.

(** ** Where an alert comes from *)

Section Origins.

Variable cfg : Config.

Lemma count_not_elem (key : AlertKey) (l : list AlertKey) :
  key ∉ l -> count key l = 0%nat.
Proof.
  unfold count. induction l as [|x l IH]; intros H; [done|].
  rewrite filter_cons. destruct (decide (x = key)) as [->|_].
  - exfalso. apply H. by left.
  - apply IH. intros Hin. apply H. by right.
Qed.

Lemma serviceKeys_cases (r : ProbeResult) (key : AlertKey) :
  key ∈ serviceKeys cfg r ->
  (status r <> HEALTHY /\ key = (HIGH, name r, statusMessage r)) \/
  (exists t, responseTime r = Some t /\ responseTimeLimit (thresholds cfg) < t /\
             key = (MEDIUM, name r, responseTimeMessage cfg r t)) \/
  (exists info, certificate r = Cert info /\
                daysToExpiration info < certExpirationDays (thresholds cfg) /\
                key = (HIGH, name r, certificateMessage r (daysToExpiration info))).
Proof.
  unfold serviceKeys. rewrite !elem_of_app. intros [H|[H|H]].
  - left. unfold statusKeys in H.
    destruct (status r); try (apply list_elem_of_singleton in H; by subst).
    by apply elem_of_nil in H.
  - right; left. unfold responseTimeKeys in H.
    destruct (responseTime r) as [t|]; [|by apply elem_of_nil in H].
    destruct (Z.ltb_spec (responseTimeLimit (thresholds cfg)) t);
      [|by apply elem_of_nil in H].
    apply list_elem_of_singleton in H. by exists t.
  - right; right. unfold certificateKeys in H.
    destruct (certificate r) as [| |info]; try by apply elem_of_nil in H.
    destruct (Z.ltb_spec (daysToExpiration info) (certExpirationDays (thresholds cfg)));
      [|by apply elem_of_nil in H].
    apply list_elem_of_singleton in H. by exists info.
Qed.

Lemma serviceKeys_service (r : ProbeResult) (key : AlertKey) :
  key ∈ serviceKeys cfg r -> key.1.2 = name r.
Proof.
  intros [[_ ->]|[(t & _ & _ & ->)|(info & _ & _ & ->)]]%serviceKeys_cases; done.
Qed.

Lemma containerKeys_cases (e : string * option string) (key : AlertKey) :
  key ∈ containerKeys e ->
  exists cstatus, e.2 = Some cstatus /\ includes cstatus "Up " = false /\
                  key = (HIGH, e.1, containerMessage e.1 cstatus).
Proof.
  unfold containerKeys. destruct e.2 as [s|]; [|by intros ?%elem_of_nil].
  destruct (includes s "Up ") eqn:E; [by intros ?%elem_of_nil|].
  intros ->%list_elem_of_singleton. by exists s.
Qed.

Lemma containerKeysOf_cases (cs : ContainerStatus) (key : AlertKey) :
  key ∈ containerKeysOf cs ->
  exists c cname cstatus,
    cs = Containers c /\ c !! cname = Some (Some cstatus) /\
    includes cstatus "Up " = false /\
    key = (HIGH, cname, containerMessage cname cstatus).
Proof.
  destruct cs as [msg|c]; simpl; [by intros ?%elem_of_nil|].
  intros ([cname st] & Hk & Hin)%list_elem_of_bind.
  apply containerKeys_cases in Hk as (s & Hs & Hup & ->). simpl in *. subst st.
  apply elem_of_map_to_list in Hin. by exists c, cname, s.
Qed.

(** Every alert of the engine is raised by a rule on one of the results, or
    by the container rule. *)
Lemma alert_origin (results : list ProbeResult) (cs : ContainerStatus)
    (alerts : list Alert) (a : Alert) :
  alertKey <$> alerts = (results ≫= serviceKeys cfg) ++ containerKeysOf cs ->
  a ∈ alerts ->
  (exists r, r ∈ results /\ alertKey a ∈ serviceKeys cfg r) \/
  alertKey a ∈ containerKeysOf cs.
Proof.
  intros E Ha. apply (list_elem_of_fmap_2 alertKey) in Ha. rewrite E in Ha.
  apply elem_of_app in Ha as [Ha|Ha]; [left|by right].
  apply list_elem_of_bind in Ha as (r & ? & ?). by exists r.
Qed.

Lemma count_other_service (r : ProbeResult) (key : AlertKey) :
  name r <> key.1.2 -> count key (serviceKeys cfg r) = 0%nat.
Proof.
  intros Hne. apply count_not_elem. intros H%serviceKeys_service. congruence.
Qed.

Lemma count_other_services (results : list ProbeResult) (key : AlertKey) :
  key.1.2 ∉ name <$> results -> count key (results ≫= serviceKeys cfg) = 0%nat.
Proof.
  intros Hne. apply count_bind_zero. intros r Hr. apply count_other_service.
  intros E. apply Hne. rewrite <- E. by apply list_elem_of_fmap_2.
Qed.

(** With distinct names, only the rules on [r] raise alerts for [name r]. *)
Lemma count_services_unique (before after : list ProbeResult) (r : ProbeResult)
    (key : AlertKey) :
  key.1.2 ∉ name <$> (before ++ after) ->
  count key ((before ++ r :: after) ≫= serviceKeys cfg) =
  count key (serviceKeys cfg r).
Proof.
  rewrite fmap_app, not_elem_of_app. intros [Hb Ha].
  rewrite bind_app, bind_cons, !count_app.
  rewrite (count_other_services before), (count_other_services after) by done.
  lia.
Qed.

Lemma names_unique_split (results : list ProbeResult) (r : ProbeResult) :
  r ∈ results -> NoDup (name <$> results) ->
  exists before after,
    results = before ++ r :: after /\ name r ∉ name <$> (before ++ after).
Proof.
  intros (before & after & ->)%list_elem_of_split Hnd.
  exists before, after. split; [done|].
  rewrite fmap_app, fmap_cons in Hnd.
  apply NoDup_app in Hnd as (_ & Hba & Hnd). apply NoDup_cons in Hnd as [Hra _].
  rewrite fmap_app, not_elem_of_app. split; [|done].
  intros Hb. apply (Hba _ Hb). by left.
Qed.

End Origins.

(** ** Probe and alert engine together *)

Section ProbeAndEngine.

Variable cfg : Config.
Variable now : nat -> Date.

Lemma checkService_pair (svc : ServiceTarget) (events : list Event) (k : nat)
    (r : ProbeResult) :
  (checkService cfg now svc events k).1 = Some r ->
  exists k1, checkService cfg now svc events k = (Some r, k1).
Proof. destruct (checkService cfg now svc events k) as [o k1]. simpl. intros ->. by exists k1. Qed.

Lemma key_alert (key : AlertKey) (alerts : list Alert) :
  key ∈ alertKey <$> alerts ->
  exists a, a ∈ alerts /\ level a = key.1.1 /\ service a = key.1.2 /\ message a = key.2.
Proof. intros (a & -> & Ha)%list_elem_of_fmap_1. by exists a. Qed.

(** C1.  When the timer of a probe fires before any answer, the probe
    settles with status TIMEOUT and a response time of the response-time
    threshold plus one, and the alert engine, given that result among any
    others and container statuses that are strings (or the error of a failed
    inspection), raises the MEDIUM response-time alert for it. *)
Theorem timeout_trips_response_time_alert
    (svc : ServiceTarget) (rest : list Event) (k0 : nat)
    (before after : list ProbeResult) (cs : ContainerStatus) (k : nat) :
  statusesDefined cs ->
  exists r k1 alerts k2 a,
    checkService cfg now svc (TimerFired :: rest) k0 = (Some r, k1) /\
    status r = TIMEOUT /\
    responseTime r = Some (responseTimeLimit (thresholds cfg) + 1) /\
    generateAlerts cfg now (before ++ r :: after) cs k = Normal (alerts, k2) /\
    a ∈ alerts /\ level a = MEDIUM /\ service a = svc_name svc /\
    message a = responseTimeMessage cfg r (responseTimeLimit (thresholds cfg) + 1).
Proof.
  intros Hcs.
  destruct (checkService_pair _ _ _ _ (checkService_timer_first cfg now svc rest k0))
    as (k1 & Hprobe).
  set (r := {| name := svc_name svc; status := TIMEOUT |}) in *.
  destruct (generateAlerts_keys cfg now (before ++ r :: after) cs k Hcs)
    as (alerts & k2 & Hgen & Hkeys).
  set (key := (MEDIUM, svc_name svc,
               responseTimeMessage cfg r (responseTimeLimit (thresholds cfg) + 1))).
  assert (key ∈ alertKey <$> alerts) as Hin.
  { rewrite Hkeys, bind_app, bind_cons, !elem_of_app. left; right; left.
    unfold serviceKeys, responseTimeKeys. rewrite !elem_of_app. right; left.
    simpl. destruct (Z.ltb_spec (responseTimeLimit (thresholds cfg))
                                (responseTimeLimit (thresholds cfg) + 1)); [|lia].
    by apply list_elem_of_singleton. }
  apply key_alert in Hin as (a & Ha & Hl & Hs & Hm).
  by exists r, k1, alerts, k2, a.
Qed.

(** C9, failing path.  The value a probe settles with when its timer fires
    first has no [timestamp] property, whereas the values of the response
    callback and of the error listener have one. *)
Theorem timeout_result_lacks_timestamp
    (svc : ServiceTarget) (rest : list Event) (k : nat)
    (code : Z) (peer : option PeerCertificate) (msg : string) :
  (exists r k1,
     checkService cfg now svc (TimerFired :: rest) k = (Some r, k1) /\
     status r = TIMEOUT /\ timestamp r = None) /\
  (exists r k1,
     checkService cfg now svc (Response code peer :: rest) k = (Some r, k1) /\
     (status r = HEALTHY \/ status r = UNHEALTHY) /\ is_Some (timestamp r)) /\
  (exists r k1,
     checkService cfg now svc (RequestError msg :: rest) k = (Some r, k1) /\
     status r = ERROR /\ is_Some (timestamp r)).
Proof.
  split; [|split].
  - destruct (checkService_pair _ _ _ _ (checkService_timer_first cfg now svc rest k))
      as (k1 & Hprobe).
    by eexists _, k1.
  - destruct (checkService_response_first cfg now svc code peer rest k)
      as (el & c & st & Hr).
    destruct (checkService_pair _ _ _ _ Hr) as (k1 & Hprobe).
    eexists _, k1. split; [done|]. simpl. split; [|by eexists].
    destruct (code =? expectedStatus svc); auto.
  - destruct (checkService_pair _ _ _ _ (checkService_error_first cfg now svc msg rest k))
      as (k1 & Hprobe).
    eexists _, k1. split; [done|]. simpl. split; [done|by eexists].
Qed.

(** C10.  A result a probe settled with whose status is ERROR has no
    response time, and the alert engine, given container statuses that are
    strings (or the error of a failed inspection), raises no MEDIUM alert for
    its service, provided no other result of the cycle bears the same name. *)
Theorem error_result_no_response_time_alert
    (svc : ServiceTarget) (events : list Event) (k0 k1 : nat) (r : ProbeResult)
    (before after : list ProbeResult) (cs : ContainerStatus) (k : nat) :
  checkService cfg now svc events k0 = (Some r, k1) ->
  status r = ERROR ->
  svc_name svc ∉ name <$> (before ++ after) ->
  statusesDefined cs ->
  responseTime r = None /\
  exists alerts k2,
    generateAlerts cfg now (before ++ r :: after) cs k = Normal (alerts, k2) /\
    forall a, a ∈ alerts -> service a = svc_name svc -> level a <> MEDIUM.
Proof.
  intros Hprobe Hst Hnames Hcs.
  assert ((checkService cfg now svc events k0).1 = Some r) as Hr by (by rewrite Hprobe).
  apply checkService_cases in Hr as [Hname Hr].
  assert (responseTime r = None) as Hrt.
  { destruct Hr as [(? & _)|[([?|?] & _)|(_ & _ & ?)]]; congruence. }
  split; [done|].
  destruct (generateAlerts_keys cfg now (before ++ r :: after) cs k Hcs)
    as (alerts & k2 & Hgen & Hkeys).
  exists alerts, k2. split; [done|]. intros a Ha Hsvc Hlevel.
  destruct (alert_origin cfg _ _ _ _ Hkeys Ha) as [(r' & Hr' & Hk)|Hk].
  - apply elem_of_app in Hr' as [Hr'|Hr'];
      [|apply elem_of_cons in Hr' as [->|Hr']].
    + apply Hnames. rewrite <- Hsvc, fmap_app, elem_of_app. left.
      pose proof (serviceKeys_service cfg r' _ Hk) as E. simpl in E.
      rewrite E. by apply list_elem_of_fmap_2.
    + apply serviceKeys_cases in Hk
        as [[_ E]|[(t & Et & _)|(info & _ & _ & E)]]; [| congruence |];
        unfold alertKey in E; congruence.
    + apply Hnames. rewrite <- Hsvc, fmap_app, elem_of_app. right.
      pose proof (serviceKeys_service cfg r' _ Hk) as E. simpl in E.
      rewrite E. by apply list_elem_of_fmap_2.
  - apply containerKeysOf_cases in Hk as (c & cname & s & _ & _ & _ & E).
    unfold alertKey in E. congruence.
Qed.

(** C8.  When the answer comes before the timer and carries the expected
    status code, the probe settles with status HEALTHY, and the alert
    engine, given container statuses that are strings (or the error of a
    failed inspection), raises no status alert for that service, provided no
    other result of the cycle bears the same name. *)
Theorem healthy_probe_no_status_alert
    (svc : ServiceTarget) (peer : option PeerCertificate) (rest : list Event)
    (k0 : nat) (before after : list ProbeResult) (cs : ContainerStatus)
    (k : nat) :
  svc_name svc ∉ name <$> (before ++ after) ->
  statusesDefined cs ->
  exists r k1 alerts k2,
    checkService cfg now svc (Response (expectedStatus svc) peer :: rest) k0
      = (Some r, k1) /\
    status r = HEALTHY /\
    generateAlerts cfg now (before ++ r :: after) cs k = Normal (alerts, k2) /\
    forall a, a ∈ alerts -> ~ isStatusAlert (svc_name svc) a.
Proof.
  intros Hnames Hcs.
  destruct (checkService_response_first cfg now svc (expectedStatus svc) peer rest k0)
    as (el & c & st & Hr).
  rewrite Z.eqb_refl in Hr.
  destruct (checkService_pair _ _ _ _ Hr) as (k1 & Hprobe).
  set (r := {| name := svc_name svc; status := HEALTHY |}) in *.
  destruct (generateAlerts_keys cfg now (before ++ r :: after) cs k Hcs)
    as (alerts & k2 & Hgen & Hkeys).
  exists r, k1, alerts, k2. do 3 (split; [done|]).
  intros a Ha [Hsvc (s & detail & Hmsg)].
  destruct (alert_origin cfg _ _ _ _ Hkeys Ha) as [(r' & Hr' & Hk)|Hk].
  - apply elem_of_app in Hr' as [Hr'|Hr'];
      [|apply elem_of_cons in Hr' as [->|Hr']].
    + apply Hnames. rewrite <- Hsvc, fmap_app, elem_of_app. left.
      pose proof (serviceKeys_service cfg r' _ Hk) as E. simpl in E.
      rewrite E. by apply list_elem_of_fmap_2.
    + apply serviceKeys_cases in Hk
        as [[Hh _]|[(t & _ & _ & E)|(info & _ & _ & E)]]; [done| |];
        injection E as _ _ E; rewrite Hmsg in E; simpl in E.
      * by apply status_not_response_time in E.
      * by apply status_not_certificate in E.
    + apply Hnames. rewrite <- Hsvc, fmap_app, elem_of_app. right.
      pose proof (serviceKeys_service cfg r' _ Hk) as E. simpl in E.
      rewrite E. by apply list_elem_of_fmap_2.
  - apply containerKeysOf_cases in Hk as (cm & cname & cst & _ & _ & _ & E).
    injection E as _ E1 E. rewrite Hmsg in E. rewrite Hsvc in E1. subst cname.
    by apply status_not_container in E.
Qed.

End ProbeAndEngine.

(** ** The alert rules, one by one *)

Section Rules.

Variable cfg : Config.
Variable now : nat -> Date.

Lemma count_statusKeys (r : ProbeResult) :
  failing (status r) -> count (HIGH, name r, statusMessage r) (statusKeys r) = 1%nat.
Proof.
  unfold statusKeys. intros [H|[H|H]]; rewrite H, count_singleton;
    by rewrite decide_True.
Qed.

Lemma count_responseTimeKeys_high (r : ProbeResult) (n m : string) :
  count (HIGH, n, m) (responseTimeKeys cfg r) = 0%nat.
Proof.
  apply count_not_elem. unfold responseTimeKeys.
  destruct (responseTime r) as [t|]; [|by intros ?%elem_of_nil].
  destruct (_ <? t); [|by intros ?%elem_of_nil].
  by intros [=]%list_elem_of_singleton.
Qed.

Lemma count_certificateKeys_status (r : ProbeResult) (l : Level) :
  count (l, name r, statusMessage r) (certificateKeys cfg r) = 0%nat.
Proof.
  apply count_not_elem. unfold certificateKeys.
  destruct (certificate r) as [| |info]; try by intros ?%elem_of_nil.
  destruct (_ <? _); [|by intros ?%elem_of_nil].
  intros [= _ E]%list_elem_of_singleton. by apply status_not_certificate in E.
Qed.

Lemma count_containers_status (r : ProbeResult) (l : Level) (cs : ContainerStatus) :
  count (l, name r, statusMessage r) (containerKeysOf cs) = 0%nat.
Proof.
  apply count_not_elem.
  intros (c & cname & s & _ & _ & _ & [= _ <- E])%containerKeysOf_cases.
  by apply status_not_container in E.
Qed.

(** C3.  For a result whose status is ERROR, UNHEALTHY or TIMEOUT, among
    results with distinct names and with container statuses that are strings
    (or the error of a failed inspection), the alert engine raises exactly
    one alert
    with level HIGH, that service and the message
    "{name} is {status}: {error or status code}"; when the result is the one
    of a probe answered 404 where 200 was expected, its status is UNHEALTHY
    and the message is "{name} is UNHEALTHY: 404". *)
Theorem failing_status_raises_one_high_alert
    (results : list ProbeResult) (cs : ContainerStatus) (k : nat)
    (r : ProbeResult) :
  r ∈ results ->
  NoDup (name <$> results) ->
  failing (status r) ->
  statusesDefined cs ->
  exists alerts k',
    generateAlerts cfg now results cs k = Normal (alerts, k') /\
    occurrences
      (HIGH, name r,
       name r +:+ " is " +:+ statusName (status r) +:+ ": " +:+ errorOrStatusCode r)
      alerts = 1%nat /\
    forall svc peer rest k0,
      expectedStatus svc = 200 ->
      (checkService cfg now svc (Response 404 peer :: rest) k0).1 = Some r ->
      status r = UNHEALTHY /\ name r = svc_name svc /\
      name r +:+ " is " +:+ statusName (status r) +:+ ": " +:+ errorOrStatusCode r
        = svc_name svc +:+ " is UNHEALTHY: 404".
Proof.
  intros Hin Hnd Hfail Hcs.
  destruct (generateAlerts_keys cfg now results cs k Hcs)
    as (alerts & k' & Hgen & Hkeys).
  exists alerts, k'. split; [done|]. split.
  - destruct (names_unique_split _ _ Hin Hnd) as (before & after & -> & Hnames).
    change (name r +:+ _) with (statusMessage r).
    rewrite occurrences_count, Hkeys, count_app.
    rewrite (count_services_unique cfg before after r) by done.
    unfold serviceKeys. rewrite !count_app.
    rewrite count_statusKeys, count_responseTimeKeys_high,
      count_certificateKeys_status, count_containers_status by done.
    done.
  - intros svc peer rest k0 Hexp Hr.
    destruct (checkService_response_first cfg now svc 404 peer rest k0)
      as (el & c & st & Hr').
    rewrite Hr' in Hr. injection Hr as <-. rewrite Hexp. done.
Qed.

Lemma prefix_app (p s : string) :
  String.prefix p s = true <-> exists y, s = p +:+ y.
Proof.
  revert s. induction p as [|c p IH]; intros s.
  - split; [intros _; by exists s|]. by destruct s.
  - destruct s as [|d s]; simpl.
    + split; [done|]. by intros [y [=]].
    + destruct (Ascii.ascii_dec c d) as [->|Hne].
      * rewrite IH. split; intros [y Hy]; exists y.
        -- by rewrite sapp_cons, Hy.
        -- rewrite sapp_cons in Hy. by injection Hy.
      * split; [done|]. intros [y Hy]. rewrite sapp_cons in Hy. congruence.
Qed.

Lemma filter_fmap_key (P : AlertKey -> Prop) `{!forall key, Decision (P key)}
    (alerts : list Alert) :
  alertKey <$> filter (fun a => P (alertKey a)) alerts
  = filter P (alertKey <$> alerts).
Proof.
  induction alerts as [|a alerts IH]; [done|].
  rewrite fmap_cons, !filter_cons.
  destruct (decide (P (alertKey a))); by rewrite ?fmap_cons, IH.
Qed.

Lemma filter_none {A : Type} (P : A -> Prop) `{!forall x, Decision (P x)}
    (l : list A) :
  (forall x, x ∈ l -> ~ P x) -> filter P l = [].
Proof.
  induction l as [|x l IH]; intros Hall; [done|].
  rewrite filter_cons, decide_False by (apply Hall; by left).
  apply IH. intros y Hy. apply Hall. by right.
Qed.

Lemma filter_all {A : Type} (P : A -> Prop) `{!forall x, Decision (P x)}
    (l : list A) :
  (forall x, x ∈ l -> P x) -> filter P l = l.
Proof.
  induction l as [|x l IH]; intros Hall; [done|].
  rewrite filter_cons, decide_True by (apply Hall; by left).
  f_equal. apply IH. intros y Hy. apply Hall. by right.
Qed.

Lemma certificate_keys_of_others (n : string) (results : list ProbeResult) :
  n ∉ name <$> results ->
  filter (isCertificateKey n) (results ≫= serviceKeys cfg) = [].
Proof.
  intros Hn. apply filter_none.
  intros key (r & Hk & Hr)%list_elem_of_bind (_ & Hs & _).
  apply Hn. rewrite <- Hs, (serviceKeys_service cfg r key Hk).
  by apply list_elem_of_fmap_2.
Qed.

Lemma certificate_keys_of_result (r : ProbeResult) :
  filter (isCertificateKey (name r)) (serviceKeys cfg r) = certificateKeys cfg r.
Proof.
  unfold serviceKeys. rewrite !filter_app.
  rewrite (filter_none _ (statusKeys r)), (filter_none _ (responseTimeKeys cfg r)).
  - simpl. apply filter_all. unfold certificateKeys.
    destruct (certificate r) as [| |info]; try by intros ? ?%elem_of_nil.
    destruct (_ <? _); [|by intros ? ?%elem_of_nil].
    intros key ->%list_elem_of_singleton. unfold isCertificateKey. simpl.
    do 2 (split; [done|]). apply prefix_app. eexists.
    unfold certificateMessage. by rewrite <- sapp_assoc.
  - unfold responseTimeKeys.
    destruct (responseTime r) as [t|]; [|by intros ? ?%elem_of_nil].
    destruct (_ <? t); [|by intros ? ?%elem_of_nil].
    by intros key ->%list_elem_of_singleton [[=] _].
  - unfold statusKeys. intros key Hk (_ & _ & Hp).
    assert (key.2 = statusMessage r) as E.
    { destruct (status r); try by apply elem_of_nil in Hk.
      all: by apply list_elem_of_singleton in Hk as ->. }
    rewrite E in Hp. apply prefix_app in Hp as [y Hy].
    rewrite sapp_assoc in Hy. by apply status_not_certificate in Hy.
Qed.

Lemma certificate_keys_of_containers (n : string) (cs : ContainerStatus) :
  filter (isCertificateKey n) (containerKeysOf cs) = [].
Proof.
  apply filter_none.
  intros key (c & cname & s & _ & _ & _ & ->)%containerKeysOf_cases (_ & _ & Hp).
  apply prefix_app in Hp as [y Hy]. simpl in Hy.
  unfold containerMessage in Hy. rewrite !sapp_cons in Hy. discriminate Hy.
Qed.

(** C4.  For a result that carries certificate information, among results
    with distinct names and with container statuses that are strings (or the
    error of a failed inspection), the certificate alerts the engine raises
    for that service are: exactly one, whose message is
    "SSL Certificate for {name} expires in {days} days" with the signed
    decimal day count, when the day count is strictly below
    [certExpirationDays]; none otherwise. *)
Theorem certificate_alert_iff_below_threshold
    (results : list ProbeResult) (cs : ContainerStatus) (k : nat)
    (r : ProbeResult) (info : CertificateInfo) :
  r ∈ results ->
  NoDup (name <$> results) ->
  certificate r = Cert info ->
  statusesDefined cs ->
  exists alerts k',
    generateAlerts cfg now results cs k = Normal (alerts, k') /\
    alertKey <$> filter (isCertificateAlert (name r)) alerts =
      (if decide (daysToExpiration info < certExpirationDays (thresholds cfg))
       then [(HIGH, name r,
              "SSL Certificate for " +:+ name r +:+ " expires in "
                +:+ numberToString (daysToExpiration info) +:+ " days")]
       else []) /\
    (length (filter (isCertificateAlert (name r)) alerts) = 1%nat <->
     daysToExpiration info < certExpirationDays (thresholds cfg)) /\
    (daysToExpiration info < 0 ->
     numberToString (daysToExpiration info)
       = "-" +:+ numberToString (- daysToExpiration info)).
Proof.
  intros Hin Hnd Hcert Hcs.
  destruct (generateAlerts_keys cfg now results cs k Hcs)
    as (alerts & k' & Hgen & Hkeys).
  exists alerts, k'. split; [done|].
  destruct (names_unique_split _ _ Hin Hnd) as (before & after & -> & Hnames).
  rewrite fmap_app, not_elem_of_app in Hnames. destruct Hnames as [Hb Ha].
  assert (alertKey <$> filter (isCertificateAlert (name r)) alerts
          = certificateKeys cfg r) as E.
  { etrans; [apply (filter_fmap_key (isCertificateKey (name r)))|].
    rewrite Hkeys.
    rewrite bind_app, bind_cons, !filter_app.
    rewrite !certificate_keys_of_others, certificate_keys_of_result,
      certificate_keys_of_containers by done.
    simpl. by rewrite !app_nil_r. }
  assert (certificateKeys cfg r =
          if decide (daysToExpiration info < certExpirationDays (thresholds cfg))
          then [(HIGH, name r, certificateMessage r (daysToExpiration info))]
          else []) as E'.
  { unfold certificateKeys. rewrite Hcert.
    destruct (Z.ltb_spec (daysToExpiration info) (certExpirationDays (thresholds cfg)));
      [by rewrite decide_True|by rewrite decide_False by lia]. }
  split; [by rewrite E, E'|]. split.
  - rewrite <- (length_fmap alertKey), E, E'. case_decide; simpl; [done|].
    split; [done|lia].
  - intros Hneg. destruct (daysToExpiration info) as [|p|p]; [lia..|done].
Qed.

(** C5.  Given a container mapping whose statuses are strings, for every
    container of the mapping the engine raises exactly one alert with level
    HIGH, that container as service and the message
    "Container {name} is not running: {status}" when the status does not
    contain "Up ", and none when it does. *)
Theorem container_alert_iff_not_up
    (results : list ProbeResult) (containers : gmap string (option string))
    (k : nat) (cname cstatus : string) :
  containers !! cname = Some (Some cstatus) ->
  statusesDefined (Containers containers) ->
  exists alerts k',
    generateAlerts cfg now results (Containers containers) k
      = Normal (alerts, k') /\
    occurrences
      (HIGH, cname, "Container " +:+ cname +:+ " is not running: " +:+ cstatus)
      alerts
    = (if includes cstatus "Up " then 0%nat else 1%nat).
Proof.
  intros Hlook Hcs.
  destruct (generateAlerts_keys cfg now results _ k Hcs)
    as (alerts & k' & Hgen & Hkeys).
  exists alerts, k'. split; [done|].
  change ("Container " +:+ _) with (containerMessage cname cstatus).
  set (key := (HIGH, cname, containerMessage cname cstatus)).
  rewrite occurrences_count, Hkeys, count_app.
  assert (count key (results ≫= serviceKeys cfg) = 0%nat) as ->.
  { apply count_bind_zero. intros r _. apply count_not_elem.
    intros [[_ E]|[(t & _ & _ & E)|(info & _ & _ & E)]]%serviceKeys_cases.
    - injection E as En E. rewrite En in E. symmetry in E.
      by apply status_not_container in E.
    - discriminate E.
    - unfold key, containerMessage, certificateMessage in E.
      rewrite !sapp_cons in E. discriminate E. }
  simpl.
  apply elem_of_map_to_list in Hlook.
  pose proof (NoDup_fst_map_to_list containers) as Hnd.
  apply list_elem_of_split in Hlook as (l1 & l2 & El). rewrite El in *.
  rewrite fmap_app, fmap_cons in Hnd.
  apply NoDup_app in Hnd as (_ & H12 & Hnd). apply NoDup_cons in Hnd as [H2 _].
  rewrite bind_app, bind_cons, !count_app.
  assert (forall l : list (string * option string),
            cname ∉ l.*1 -> count key (l ≫= containerKeys) = 0%nat) as Hother.
  { intros l Hl. apply count_bind_zero. intros e He. apply count_not_elem.
    intros (s & _ & _ & [= E _])%containerKeys_cases.
    apply Hl. rewrite E. by apply list_elem_of_fmap_2. }
  rewrite !Hother; [| done |].
  - unfold containerKeys. simpl. destruct (includes cstatus "Up "); [done|].
    by rewrite count_singleton, decide_True.
  - intros H1. apply (H12 _ H1). by left.
Qed.

End Rules.

(** ** The metrics file: what is saved is what is loaded *)

Lemma decodeStatus_statusName (s : Status) : decodeStatus (statusName s) = Some s.
Proof. by destruct s. Qed.

Lemma decodeLevel_levelName (l : Level) : decodeLevel (levelName l) = Some l.
Proof. by destruct l. Qed.

Lemma decodeCertificate_encode (c : CertificateInfo) :
  decodeCertificate (encodeCertificate c) = Some c.
Proof. by destruct c. Qed.

Lemma decodeResult_encode (r : ProbeResult) :
  decodeResult (encodeResult r) = Some r.
Proof.
  destruct r as [n u s sc rt c e t].
  destruct s, sc, rt, c as [| |[i x d]], e, t; reflexivity.
Qed.

Lemma decodeAlert_encode (a : Alert) : decodeAlert (encodeAlert a) = Some a.
Proof. destruct a as [[] s m t]; reflexivity. Qed.

Lemma decodeAlerts_encode (l : list Alert) :
  decodeAlerts (JArr (encodeAlert <$> l)) = Some l.
Proof. simpl. apply mapM_fmap_Some. exact decodeAlert_encode. Qed.

Lemma decodeEntries_encode {A : Type} (enc : A -> JSON) (dec : JSON -> option A)
    (l : list (string * A)) :
  (forall a, dec (enc a) = Some a) ->
  decodeEntries dec (encodeEntries enc l) = Some l.
Proof.
  intros H. unfold decodeEntries, encodeEntries. apply mapM_fmap_Some.
  intros [key a]. simpl. by rewrite H.
Qed.

Lemma decodeObject_encode {A : Type} (enc : A -> JSON) (dec : JSON -> option A)
    (m : gmap string A) :
  (forall a, dec (enc a) = Some a) ->
  decodeObject dec (JObj (encodeEntries enc (map_to_list m))) = Some m.
Proof.
  intros H. simpl. rewrite (decodeEntries_encode enc dec _ H). simpl.
  by rewrite list_to_map_to_list.
Qed.

Lemma definedEntries_elem (l : list (string * option string)) (n s : string) :
  (n, s) ∈ definedEntries l <-> (n, Some s) ∈ l.
Proof.
  unfold definedEntries. rewrite list_elem_of_omap. split.
  - intros ([n' [s'|]] & Hin & E); simplify_eq/=. done.
  - intros Hin. by exists (n, Some s).
Qed.

Lemma printedStatuses_elem (c : gmap string (option string)) (n : string)
    (v : option string) :
  (n, v) ∈ printedStatuses c <-> exists s, v = Some s /\ c !! n = Some (Some s).
Proof.
  unfold printedStatuses. rewrite list_elem_of_fmap. split.
  - intros ([n' s] & [= -> ->] & Hin%definedEntries_elem).
    exists s. split; [done|]. by apply elem_of_map_to_list.
  - intros (s & -> & Hc). exists (n, s). split; [done|].
    apply definedEntries_elem. by apply elem_of_map_to_list.
Qed.

Lemma printedStatuses_NoDup (c : gmap string (option string)) :
  NoDup (printedStatuses c).*1.
Proof.
  unfold printedStatuses.
  assert (forall l : list (string * option string),
            NoDup l.*1 ->
            NoDup ((fun e : string * string => (e.1, Some e.2)) <$> definedEntries l).*1)
    as H; [|apply H, NoDup_fst_map_to_list].
  induction l as [|[n [s|]] l IH]; intros Hnd; [constructor|..];
    apply NoDup_cons in Hnd as [Hn Hnd]; simpl; [|by apply IH].
  apply NoDup_cons. split; [|by apply IH].
  intros ([n' v] & E & Hin)%list_elem_of_fmap. simpl in E. subst n'.
  apply list_elem_of_fmap in Hin as ([n' s'] & [= -> ->] & Hin%definedEntries_elem).
  apply Hn. by apply (list_elem_of_fmap_2 fst) in Hin.
Qed.

Lemma decodeEntries_statuses (l : list (string * string)) :
  decodeEntries (fun v => Some <$> asString v) (encodeEntries JStr l)
  = Some ((fun e : string * string => (e.1, Some e.2)) <$> l).
Proof.
  induction l as [|[n s] l IH]; [done|].
  unfold decodeEntries, encodeEntries in *. rewrite fmap_cons. simpl.
  by rewrite IH.
Qed.

(** Reading a status by name gives the same before and after printing. *)
Lemma readStatus_printed (c : gmap string (option string)) (cname : string) :
  readStatus (list_to_map (printedStatuses c)) cname = readStatus c cname.
Proof.
  unfold readStatus. apply option_eq. intros s.
  rewrite !bind_Some. split.
  - intros (v & Hv%elem_of_list_to_map_2 & E). simpl in E. subst v.
    apply printedStatuses_elem in Hv as (s' & [= <-] & Hc). by exists (Some s).
  - intros (v & Hc & E). simpl in E. subst v. exists (Some s). split; [|done].
    apply elem_of_list_to_map_1; [apply printedStatuses_NoDup|].
    apply printedStatuses_elem. by exists s.
Qed.

(** C7.  Loading the metrics file right after a snapshot was saved to it
    yields a snapshot equivalent to the saved one: the same last check,
    service results and alerts, and container statuses that read the same
    under every name. *)
Theorem load_after_save (m : Metrics) (f : File) :
  exists m', load (save m f) = Snapshot m' /\ equivalent m' m.
Proof.
  destruct m as [lc sv cs al].
  exists {| lastCheck := lc; services := sv;
            containerStatus := (fun c => list_to_map (printedStatuses c)) <$> cs;
            alerts := al |}.
  split.
  - unfold load, save, decodeMetrics, encodeMetrics.
    destruct lc as [t|], cs as [c|]; simpl;
      rewrite (decodeEntries_encode encodeResult decodeResult _ decodeResult_encode);
      simpl; rewrite list_to_map_to_list;
      rewrite (mapM_fmap_Some _ _ _ decodeAlert_encode); simpl;
      rewrite ?decodeEntries_statuses; done.
  - unfold equivalent. simpl. do 3 (split; [done|]).
    destruct cs as [c|]; simpl; [|done]. apply readStatus_printed.
Qed.

(** ** One cycle *)

Section Cycle.

Variable cfg : Config.
Variable now : nat -> Date.

(** Every value of [probeAll] is the value some probe of the cycle settled
    with, for the service at the same position. *)
Lemma probeAll_spec (svcs : list ServiceTarget) (network : nat -> list Event)
    (i k : nat) :
  Forall2 (fun svc o => exists j k0, o = (checkService cfg now svc (network j) k0).1)
          svcs (probeAll cfg now svcs network i k).1.
Proof.
  revert i k. induction svcs as [|svc svcs IH]; intros i k; simpl; [constructor|].
  destruct (checkService cfg now svc (network i) k) as [o k1] eqn:E.
  specialize (IH (S i) k1).
  destruct (probeAll cfg now svcs network (S i) k1) as [os k2]. simpl in *.
  constructor; [|done]. exists i, k. by rewrite E.
Qed.

Lemma awaitAll_Normal (probes : list (option ProbeResult))
    (results : list ProbeResult) :
  awaitAll probes = Normal results -> probes = Some <$> results.
Proof.
  unfold awaitAll. destruct (mapM id probes) as [l|] eqn:E; [|done].
  intros [= ->]. apply mapM_Some in E.
  induction E as [|o r probes results Ho _ IH]; [done|].
  simpl in Ho. subst o. by rewrite fmap_cons, IH.
Qed.

Lemma storeResults_other (results : list ProbeResult)
    (base : gmap string ProbeResult) (n : string) :
  n ∉ name <$> results -> storeResults results base !! n = base !! n.
Proof.
  revert base. induction results as [|r results IH]; intros base Hn; [done|].
  rewrite fmap_cons, not_elem_of_cons in Hn. destruct Hn as [Hr Hn].
  unfold storeResults in *. simpl. rewrite IH by done.
  by rewrite lookup_insert_ne.
Qed.

(** After lines 218-220 the entry under the name of any result of the cycle
    is a result of the cycle with that name. *)
Lemma storeResults_lookup (results : list ProbeResult)
    (base : gmap string ProbeResult) (n : string) :
  n ∈ name <$> results ->
  exists r, r ∈ results /\ name r = n /\ storeResults results base !! n = Some r.
Proof.
  revert base. induction results as [|r results IH]; intros base Hn.
  - by apply elem_of_nil in Hn.
  - destruct (decide (n ∈ name <$> results)) as [Hin|Hout].
    + destruct (IH (<[name r := r]> base) Hin) as (r' & Hr' & Hname & Hl).
      exists r'. split; [by right|done].
    + rewrite fmap_cons in Hn. apply elem_of_cons in Hn as [->|Hn]; [|done].
      exists r. split; [by left|]. split; [done|].
      unfold storeResults. simpl.
      change (fold_left _ results ?b) with (storeResults results b).
      rewrite storeResults_other by done. by rewrite lookup_insert_eq.
Qed.

Lemma one_entry_per_key {A : Type} (m : gmap string A) (n : string) (x : A) :
  m !! n = Some x ->
  filter (fun e : string * A => e.1 = n) (map_to_list m) = [(n, x)].
Proof.
  intros Hl%elem_of_map_to_list.
  pose proof (NoDup_fst_map_to_list m) as Hnd.
  apply list_elem_of_split in Hl as (l1 & l2 & El). rewrite El in *.
  rewrite fmap_app, fmap_cons in Hnd.
  apply NoDup_app in Hnd as (_ & H12 & Hnd). apply NoDup_cons in Hnd as [H2 _].
  rewrite filter_app, filter_cons, decide_True by done.
  rewrite !filter_none; [done|..].
  - intros e He E. apply H2. simpl. rewrite <- E.
    by apply (list_elem_of_fmap_2 fst).
  - intros e He E. apply (H12 n); [|by left]. rewrite <- E.
    by apply (list_elem_of_fmap_2 fst).
Qed.

(** C2.  After a cycle that completes, for every configured service the
    service mapping of the snapshot, in memory and as written to the metrics
    file, has exactly one entry under the name of the service, and that
    entry is a result a probe of this cycle settled with for a configured
    service of that name. *)
Theorem every_service_has_one_entry
    (metrics : Metrics) (file : File) (network : nat -> list Event)
    (docker : ExecResult) (k : nat)
    (metrics' : Metrics) (file' : File) (k' : nat) (svc : ServiceTarget) :
  runCheck cfg now metrics file network docker k = Normal (metrics', file', k') ->
  svc ∈ cfg_services cfg ->
  file' = FileJson (encodeMetrics metrics') /\
  exists r,
    services metrics' !! svc_name svc = Some r /\
    filter (fun e : string * ProbeResult => e.1 = svc_name svc)
           (map_to_list (services metrics')) = [(svc_name svc, r)] /\
    name r = svc_name svc /\
    exists svc' j k0,
      svc' ∈ cfg_services cfg /\ svc_name svc' = svc_name svc /\
      (checkService cfg now svc' (network j) k0).1 = Some r.
Proof.
  unfold runCheck. intros Hrun Hsvc.
  pose proof (probeAll_spec (cfg_services cfg) network 0 (S k)) as Hprobes.
  destruct (probeAll cfg now (cfg_services cfg) network 0 (S k)) as [probes k1].
  simpl in Hprobes.
  destruct (awaitAll probes) as [results| |] eqn:Hawait; [|done..].
  apply awaitAll_Normal in Hawait. subst probes.
  destruct (generateAlerts cfg now results (checkContainers docker) k1)
    as [[currentAlerts k2]| |]; [|done..].
  injection Hrun as <- <- <-. split; [done|]. simpl.
  apply Forall2_fmap_r in Hprobes.
  assert (forall svc' r, svc' ∈ cfg_services cfg ->
            (exists j k0, Some r = (checkService cfg now svc' (network j) k0).1) ->
            name r = svc_name svc') as Hname.
  { intros svc' r _ (j & k0 & E). symmetry in E.
    by apply checkService_cases in E as [? _]. }
  assert (svc_name svc ∈ name <$> results) as Hin.
  { apply list_elem_of_lookup in Hsvc as [i Hi].
    destruct (Forall2_lookup_l _ _ _ _ _ Hprobes Hi) as (r & Hr & Hp).
    rewrite <- (Hname svc r); [|by eapply list_elem_of_lookup_2|done].
    apply list_elem_of_fmap_2. by eapply list_elem_of_lookup_2. }
  destruct (storeResults_lookup results (services metrics) _ Hin)
    as (r & Hr & Hrn & Hl).
  exists r. split; [done|]. split; [by apply one_entry_per_key|]. split; [done|].
  apply list_elem_of_lookup in Hr as [i Hi].
  destruct (Forall2_lookup_r _ _ _ _ _ Hprobes Hi) as (svc' & Hs' & j & k0 & Hp).
  exists svc', j, k0.
  assert (svc' ∈ cfg_services cfg) as Hin' by (by eapply list_elem_of_lookup_2).
  split; [done|]. split; [|done].
  rewrite <- Hrn. symmetry. apply Hname; [done|]. by exists j, k0.
Qed.

(** When every probe settles and every listed container has a status, the
    cycle completes and writes the new snapshot, whatever [metrics] was
    loaded. *)
Lemma runCheck_completes (metrics : Metrics) (file : File)
    (network : nat -> list Event) (docker : ExecResult) (k : nat) :
  (forall i, network i <> []) ->
  statusesDefined (checkContainers docker) ->
  exists metrics' k',
    runCheck cfg now metrics file network docker k
      = Normal (metrics', save metrics' file, k').
Proof.
  intros Hnet Hcs. unfold runCheck.
  pose proof (probeAll_spec (cfg_services cfg) network 0 (S k)) as Hprobes.
  destruct (probeAll cfg now (cfg_services cfg) network 0 (S k)) as [probes k1].
  simpl in Hprobes.
  assert (exists results, probes = Some <$> results) as [results ->].
  { clear -Hprobes Hnet. induction Hprobes as [|svc o svcs probes Ho _ [rs ->]].
    - by exists [].
    - destruct Ho as (j & k0 & ->).
      destruct (network j) as [|[|code peer|msg] rest] eqn:E; [by apply Hnet in E|..].
      + rewrite checkService_timer_first. by eexists (_ :: rs).
      + destruct (checkService_response_first cfg now svc code peer rest k0)
          as (? & ? & ? & ->). by eexists (_ :: rs).
      + rewrite checkService_error_first. by eexists (_ :: rs). }
  unfold awaitAll. rewrite (mapM_fmap_Some id Some results) by done.
  destruct (generateAlerts_keys cfg now results _ k1 Hcs)
    as (alerts & k2 & -> & _).
  by eexists _, _.
Qed.

Lemma generateAlerts_undefined_status (results : list ProbeResult)
    (cname : string) (k : nat) :
  generateAlerts cfg now results (Containers {[ cname := None ]}) k
  = Throw typeErrorIncludes.
Proof.
  unfold generateAlerts. rewrite map_to_list_singleton.
  by destruct (fold_left _ results _).
Qed.

End Cycle.

(** With no running container [docker ps] prints nothing, and the inspector
    resolves to a mapping with one entry whose status is [undefined]. *)
Lemma checkContainers_no_container :
  checkContainers (ExecOk "") = Containers {[ "" := None ]}.
Proof. reflexivity. Qed.

(** C6, failing input.  A missing or corrupt metrics file leaves the default
    snapshot in [metrics]; but when [docker ps] lists no container the first
    cycle, like any other, does not complete: it throws in [generateAlerts]
    before the metrics file is written, or waits for a probe for ever. *)
Theorem first_cycle_aborts_without_containers
    (cfg : Config) (now : nat -> Date) (file : File)
    (network : nat -> list Event) (k : nat) :
  load FileAbsent = Snapshot defaultMetrics /\
  load FileCorrupt = Snapshot defaultMetrics /\
  (runCheck cfg now defaultMetrics file network (ExecOk "") k
     = Throw typeErrorIncludes \/
   runCheck cfg now defaultMetrics file network (ExecOk "") k = Pending).
Proof.
  do 2 (split; [done|]). unfold runCheck.
  destruct (probeAll cfg now (cfg_services cfg) network 0 (S k)) as [probes k1].
  destruct (awaitAll probes) as [results| |] eqn:E.
  - left. rewrite checkContainers_no_container.
    by rewrite generateAlerts_undefined_status.
  - unfold awaitAll in E. by destruct (mapM id probes).
  - by right.
Qed.

(** ** Runs on the sample inputs *)

Example probe_timeout :
  checkService config sampleClock nasaApp [TimerFired; Response 200 None] 0
  = (Some {| name := "NASA App";
             url := "https://majortomtogroundcontrol.duckdns.org";
             status := TIMEOUT;
             statusCode := None;
             responseTime := Some 1501;
             certificate := CertMissing;
             error := Some "Request timed out";
             timestamp := None |}, 3%nat).
Proof. reflexivity. Qed.

Example probe_not_found :
  checkService config sampleClock nasaApp [Response 404 None] 0
  = (Some {| name := "NASA App";
             url := "https://majortomtogroundcontrol.duckdns.org";
             status := UNHEALTHY;
             statusCode := Some 404;
             responseTime := Some 1000;
             certificate := CertNull;
             error := None;
             timestamp := Some "2025-06-01T12:00:00.000Z" |}, 3%nat).
Proof. reflexivity. Qed.

Example alerts_web_and_db :
  generateAlerts config sampleClock [] (Containers webAndDb) 0
  = Normal ([{| level := HIGH;
                service := "db";
                message := "Container db is not running: Exited (1) 3 minutes ago";
                alertTimestamp := "2025-06-01T12:00:00.000Z" |}], 1%nat).
Proof. vm_compute. reflexivity. Qed.

Example alerts_certificate_five_days :
  generateAlerts config sampleClock [withCertificate 5] (InspectionError "docker: not found") 0
  = Normal ([{| level := HIGH;
                service := "NASA App";
                message := "SSL Certificate for NASA App expires in 5 days";
                alertTimestamp := "2025-06-01T12:00:00.000Z" |}], 1%nat).
Proof. vm_compute. reflexivity. Qed.

Example alerts_certificate_thirty_days :
  generateAlerts config sampleClock [withCertificate 30] (InspectionError "docker: not found") 0
  = Normal ([], 0%nat).
Proof. vm_compute. reflexivity. Qed.

Example alerts_certificate_expired :
  generateAlerts config sampleClock [withCertificate (-3)] (InspectionError "docker: not found") 0
  = Normal ([{| level := HIGH;
                service := "NASA App";
                message := "SSL Certificate for NASA App expires in -3 days";
                alertTimestamp := "2025-06-01T12:00:00.000Z" |}], 1%nat).
Proof. vm_compute. reflexivity. Qed.

(** No metrics file, every service answers 200, no container is running. *)
Example first_cycle_without_containers :
  runCheck config sampleClock defaultMetrics FileAbsent allAnswer200 (ExecOk "") 0
  = Throw typeErrorIncludes.
Proof. vm_compute. reflexivity. Qed.

Lemma timeout_trips_response_time_alert_witness :
  statusesDefined (InspectionError "docker: not found") /\
  exists r k1 alerts k2 a,
    checkService config sampleClock nasaApp [TimerFired] 0 = (Some r, k1) /\
    status r = TIMEOUT /\
    responseTime r = Some 1501 /\
    generateAlerts config sampleClock [r] (InspectionError "docker: not found") 0
      = Normal (alerts, k2) /\
    a ∈ alerts /\ level a = MEDIUM /\ service a = "NASA App" /\
    message a = responseTimeMessage config r 1501.
Proof.
  split; [exact I|].
  exact (timeout_trips_response_time_alert config sampleClock nasaApp [] 0 [] []
           (InspectionError "docker: not found") 0 I).
Defined.

Lemma healthy_probe_no_status_alert_witness :
  ("NASA App" ∉ name <$> ([] : list ProbeResult)) /\
  statusesDefined (Containers webAndDb) /\
  exists r k1 alerts k2,
    checkService config sampleClock nasaApp [Response 200 None] 0 = (Some r, k1) /\
    status r = HEALTHY /\
    generateAlerts config sampleClock [r] (Containers webAndDb) 0
      = Normal (alerts, k2) /\
    forall a, a ∈ alerts -> ~ isStatusAlert "NASA App" a.
Proof.
  assert (statusesDefined (Containers webAndDb)) as Hcs.
  { vm_compute. repeat constructor; by eexists. }
  split; [apply not_elem_of_nil|]. split; [exact Hcs|].
  exact (healthy_probe_no_status_alert config sampleClock nasaApp None [] 0 [] []
           (Containers webAndDb) 0 (not_elem_of_nil _) Hcs).
Defined.

Lemma error_result_no_response_time_alert_witness :
  exists r k1,
    checkService config sampleClock nasaApp [RequestError "connect ECONNREFUSED"] 0
      = (Some r, k1) /\
    status r = ERROR /\
    ("NASA App" ∉ name <$> ([] : list ProbeResult)) /\
    statusesDefined (InspectionError "docker: not found") /\
    responseTime r = None /\
    exists alerts k2,
      generateAlerts config sampleClock [r] (InspectionError "docker: not found") 0
        = Normal (alerts, k2) /\
      forall a, a ∈ alerts -> service a = "NASA App" -> level a <> MEDIUM.
Proof.
  eexists _, _. split; [reflexivity|]. split; [reflexivity|].
  split; [apply not_elem_of_nil|]. split; [exact I|].
  exact (error_result_no_response_time_alert config sampleClock nasaApp
           [RequestError "connect ECONNREFUSED"] 0 _ _ [] []
           (InspectionError "docker: not found") 0
           eq_refl eq_refl (not_elem_of_nil _) I).
Defined.

Lemma failing_status_raises_one_high_alert_witness :
  notFound ∈ [notFound] /\
  NoDup (name <$> [notFound]) /\
  failing (status notFound) /\
  statusesDefined (Containers webAndDb) /\
  expectedStatus nasaApp = 200 /\
  (checkService config sampleClock nasaApp [Response 404 None] 0).1 = Some notFound /\
  exists alerts k',
    generateAlerts config sampleClock [notFound] (Containers webAndDb) 0
      = Normal (alerts, k') /\
    occurrences (HIGH, "NASA App", "NASA App is UNHEALTHY: 404") alerts = 1%nat /\
    status notFound = UNHEALTHY /\ name notFound = "NASA App".
Proof.
  assert (statusesDefined (Containers webAndDb)) as Hcs.
  { vm_compute. repeat constructor; by eexists. }
  assert (NoDup (name <$> [notFound])) as Hnd by apply NoDup_singleton.
  assert (failing (status notFound)) as Hf by (right; left; reflexivity).
  split; [apply list_elem_of_here|]. split; [exact Hnd|].
  split; [exact Hf|]. split; [exact Hcs|].
  split; [reflexivity|]. split; [reflexivity|].
  destruct (failing_status_raises_one_high_alert config sampleClock [notFound]
              (Containers webAndDb) 0 notFound (list_elem_of_here _ _) Hnd Hf Hcs)
    as (alerts & k' & Hgen & Hocc & H404).
  exists alerts, k'. split; [exact Hgen|]. split; [exact Hocc|].
  destruct (H404 nasaApp None [] 0%nat eq_refl eq_refl) as (Hst & Hname & _).
  split; [exact Hst|exact Hname].
Defined.

Lemma certificate_alert_iff_below_threshold_witness :
  withCertificate 5 ∈ [withCertificate 5] /\
  NoDup (name <$> [withCertificate 5]) /\
  certificate (withCertificate 5)
    = Cert {| issuer := "R3"; expirationDate := "2025-06-06T12:00:00.000Z";
              daysToExpiration := 5 |} /\
  statusesDefined (InspectionError "docker: not found") /\
  (exists alerts k',
     generateAlerts config sampleClock [withCertificate 5]
       (InspectionError "docker: not found") 0 = Normal (alerts, k') /\
     alertKey <$> filter (isCertificateAlert "NASA App") alerts
       = [(HIGH, "NASA App", "SSL Certificate for NASA App expires in 5 days")] /\
     (length (filter (isCertificateAlert "NASA App") alerts) = 1%nat <-> 5 < 14) /\
     (5 < 0 -> "5" = "-" +:+ numberToString (- 5))) /\
  (exists alerts k',
     generateAlerts config sampleClock [withCertificate 30]
       (InspectionError "docker: not found") 0 = Normal (alerts, k') /\
     alertKey <$> filter (isCertificateAlert "NASA App") alerts = [] /\
     (length (filter (isCertificateAlert "NASA App") alerts) = 1%nat <-> 30 < 14) /\
     (30 < 0 -> "30" = "-" +:+ numberToString (- 30))).
Proof.
  assert (forall d, NoDup (name <$> [withCertificate d])) as Hnd
    by (intros d; apply NoDup_singleton).
  split; [apply list_elem_of_here|]. split; [exact (Hnd 5)|].
  split; [reflexivity|]. split; [exact I|]. split.
  - exact (certificate_alert_iff_below_threshold config sampleClock
             [withCertificate 5] (InspectionError "docker: not found") 0
             (withCertificate 5) _ (list_elem_of_here _ _) (Hnd 5) eq_refl I).
  - exact (certificate_alert_iff_below_threshold config sampleClock
             [withCertificate 30] (InspectionError "docker: not found") 0
             (withCertificate 30) _ (list_elem_of_here _ _) (Hnd 30) eq_refl I).
Defined.

Lemma container_alert_iff_not_up_witness :
  webAndDb !! "db" = Some (Some "Exited (1) 3 minutes ago") /\
  webAndDb !! "web" = Some (Some "Up 2 hours") /\
  statusesDefined (Containers webAndDb) /\
  (exists alerts k',
     generateAlerts config sampleClock [] (Containers webAndDb) 0
       = Normal (alerts, k') /\
     occurrences
       (HIGH, "db", "Container db is not running: Exited (1) 3 minutes ago")
       alerts = 1%nat) /\
  (exists alerts k',
     generateAlerts config sampleClock [] (Containers webAndDb) 0
       = Normal (alerts, k') /\
     occurrences (HIGH, "web", "Container web is not running: Up 2 hours")
       alerts = 0%nat).
Proof.
  assert (statusesDefined (Containers webAndDb)) as Hcs.
  { vm_compute. repeat constructor; by eexists. }
  split; [reflexivity|]. split; [reflexivity|]. split; [exact Hcs|]. split.
  - exact (container_alert_iff_not_up config sampleClock [] webAndDb 0
             "db" "Exited (1) 3 minutes ago" eq_refl Hcs).
  - exact (container_alert_iff_not_up config sampleClock [] webAndDb 0
             "web" "Up 2 hours" eq_refl Hcs).
Defined.

Lemma every_service_has_one_entry_witness :
  exists metrics' file' k',
    runCheck config sampleClock defaultMetrics FileAbsent allAnswer200
      (ExecError "docker: not found") 0 = Normal (metrics', file', k') /\
    nasaApp ∈ cfg_services config /\
    file' = FileJson (encodeMetrics metrics') /\
    exists r,
      services metrics' !! "NASA App" = Some r /\
      filter (fun e : string * ProbeResult => e.1 = "NASA App")
             (map_to_list (services metrics')) = [("NASA App", r)] /\
      name r = "NASA App" /\
      exists svc' j k0,
        svc' ∈ cfg_services config /\ svc_name svc' = "NASA App" /\
        (checkService config sampleClock svc' (allAnswer200 j) k0).1 = Some r.
Proof.
  assert (exists out,
            runCheck config sampleClock defaultMetrics FileAbsent allAnswer200
              (ExecError "docker: not found") 0 = Normal out)
    as [[[metrics' file'] k'] Hrun] by (eexists; vm_compute; reflexivity).
  assert (nasaApp ∈ cfg_services config) as Hin.
  { apply list_elem_of_further, list_elem_of_here. }
  exists metrics', file', k'.
  split; [exact Hrun|]. split; [exact Hin|].
  exact (every_service_has_one_entry config sampleClock defaultMetrics FileAbsent
           allAnswer200 (ExecError "docker: not found") 0 metrics' file' k' nasaApp
           Hrun Hin).
Defined.

(** ** More about the probe *)

Section ProbeMore.

Variable cfg : Config.
Variable now : nat -> Date.

(** The value of the response callback, with its certificate block spelled
    out. *)
Lemma checkService_response_value (svc : ServiceTarget) (code : Z)
    (peer : option PeerCertificate) (rest : list Event) (k : nat) :
  (checkService cfg now svc (Response code peer :: rest) k).1 =
  Some {| name := svc_name svc;
          url := svc_url svc;
          status := if code =? expectedStatus svc then HEALTHY else UNHEALTHY;
          statusCode := Some code;
          responseTime := Some (getTime (now (S k)) - getTime (now k));
          certificate := (certInfoOf now svc peer (S (S k))).1;
          error := None;
          timestamp :=
            Some (toISOString (now (certInfoOf now svc peer (S (S k))).2)) |}.
Proof.
  apply checkService_first. simpl. unfold onResponse.
  by destruct (certInfoOf now svc peer (S (S k))).
Qed.

(** X1.  Whichever event comes first settles the probe: the events that
    follow, a late response after the timer or a late timer, change nothing;
    and a probe with no event at all stays pending. *)
Theorem first_event_wins (svc : ServiceTarget) (e : Event) (rest : list Event)
    (k : nat) :
  (checkService cfg now svc (e :: rest) k).1 = (checkService cfg now svc [e] k).1 /\
  is_Some (checkService cfg now svc (e :: rest) k).1 /\
  (checkService cfg now svc [] k).1 = None.
Proof.
  split; [|split; [|done]].
  - destruct e as [|code peer|msg].
    + by rewrite !checkService_timer_first.
    + by rewrite !checkService_response_value.
    + by rewrite !checkService_error_first.
  - destruct e as [|code peer|msg].
    + by rewrite checkService_timer_first.
    + by rewrite checkService_response_value.
    + by rewrite checkService_error_first.
Qed.

(** X2.  The value a probe settles with bears the name and URL of its
    target; it is HEALTHY exactly when it carries the expected status code,
    UNHEALTHY only with another status code, and carries no status code but
    an error text when it is TIMEOUT or ERROR. *)
Theorem status_matches_status_code (svc : ServiceTarget) (events : list Event)
    (k : nat) (r : ProbeResult) :
  (checkService cfg now svc events k).1 = Some r ->
  name r = svc_name svc /\ url r = svc_url svc /\
  (status r = HEALTHY <-> statusCode r = Some (expectedStatus svc)) /\
  (status r = UNHEALTHY ->
   exists code, statusCode r = Some code /\ code <> expectedStatus svc /\ error r = None) /\
  (status r = TIMEOUT -> statusCode r = None /\ error r = Some "Request timed out") /\
  (status r = ERROR -> statusCode r = None /\ is_Some (error r)).
Proof.
  destruct events as [|[|code peer|msg] rest].
  - by rewrite checkService_no_event.
  - rewrite checkService_timer_first. intros [= <-]. simpl.
    repeat split; intros; try done; congruence.
  - rewrite checkService_response_value. intros [= <-]. simpl.
    destruct (Z.eqb_spec code (expectedStatus svc)) as [->|Hne];
      repeat split; intros; try done; try congruence; by exists code.
  - rewrite checkService_error_first. intros [= <-]. simpl.
    repeat split; intros; try done; try congruence; by eexists.
Qed.

(** X3.  A result of the response callback carries certificate information
    exactly when the URL starts with "https" and the socket hands back a
    certificate with a [valid_to]; in every other case its [certificate] is
    [null]. *)
Theorem certificate_present_iff (svc : ServiceTarget) (code : Z)
    (peer : option PeerCertificate) (rest : list Event) (k : nat) :
  exists r k1,
    checkService cfg now svc (Response code peer :: rest) k = (Some r, k1) /\
    ((exists info, certificate r = Cert info) <->
     (startsWith (svc_url svc) "https" = true /\
      exists cert expiration, peer = Some cert /\ valid_to cert = Some expiration)) /\
    ((forall info, certificate r <> Cert info) -> certificate r = CertNull).
Proof.
  destruct (checkService_pair cfg now _ _ _ _
              (checkService_response_value svc code peer rest k)) as (k1 & Hp).
  eexists _, k1. split; [exact Hp|]. simpl. unfold certInfoOf.
  destruct (startsWith (svc_url svc) "https"); [|simpl; split; [|done]].
  - destruct peer as [cert|]; [destruct (valid_to cert) as [d|] eqn:E|]; simpl.
    + split; [|intros H; by destruct (H _ eq_refl)].
      split; [intros _|by eexists]. split; [done|]. by exists cert, d.
    + split; [|done]. split; [by intros [? ?]|].
      intros (_ & c' & d' & [= <-] & ?). congruence.
    + split; [|done]. split; [by intros [? ?]|]. by intros (_ & ? & ? & ? & _).
  - split; [by intros [? ?]|]. by intros [? _].
Qed.

(** X4.  The day count of the certificate information is the ceiling of the
    time left in days: the expiration lies at most [days] and more than
    [days - 1] days after the clock reading; so a certificate that has
    expired has a day count of zero or less.  The issuer is the certificate's
    common name, or "Unknown" when that is missing or empty. *)
Theorem days_to_expiration_is_ceiling (svc : ServiceTarget) (code : Z)
    (cert : PeerCertificate) (expiration : Date) (rest : list Event) (k : nat) :
  startsWith (svc_url svc) "https" = true ->
  valid_to cert = Some expiration ->
  exists r k1 info,
    checkService cfg now svc (Response code (Some cert) :: rest) k = (Some r, k1) /\
    certificate r = Cert info /\
    expirationDate info = toISOString expiration /\
    issuer info = issuerOrUnknown (issuerCN cert) /\
    (issuer info = "Unknown" \/ issuerCN cert = Some (issuer info)) /\
    let left := getTime expiration - getTime (now (S (S k))) in
    86400000 * (daysToExpiration info - 1) < left <= 86400000 * daysToExpiration info /\
    (left <= 0 <-> daysToExpiration info <= 0).
Proof.
  intros Hhttps Hvalid.
  destruct (checkService_pair cfg now _ _ _ _
              (checkService_response_value svc code (Some cert) rest k)) as (k1 & Hp).
  unfold certInfoOf in Hp. rewrite Hhttps, Hvalid in Hp. simpl in Hp.
  eexists _, k1, _. split; [exact Hp|]. simpl. do 3 (split; [done|]).
  split.
  { destruct (issuerCN cert) as [[|c s]|]; simpl; auto. }
  cbv zeta. unfold ceilDiv. change (1000 * 60 * 60 * 24) with 86400000.
  set (x := getTime expiration - getTime (now (S (S k)))).
  pose proof (Z.div_mod (- x) 86400000 ltac:(lia)) as Hdm.
  pose proof (Z.mod_pos_bound (- x) 86400000 ltac:(lia)) as Hb.
  simpl. split; [lia|]. split; intros ?; lia.
Qed.

End ProbeMore.

(** ** More about the alert engine *)

Section EngineMore.

Variable cfg : Config.
Variable now : nat -> Date.

Lemma stamped_nil (k : nat) : stamped now k [].
Proof. by intros i a. Qed.

Lemma stamped_singleton (k : nat) (a : Alert) :
  alertTimestamp a = toISOString (now k) -> stamped now k [a].
Proof.
  intros H [|i] b; simpl; [|done]. intros [= <-]. by rewrite Nat.add_0_r.
Qed.

Lemma stamped_app (k : nat) (l1 l2 : list Alert) :
  stamped now k l1 -> stamped now (k + length l1) l2 -> stamped now k (l1 ++ l2).
Proof.
  intros H1 H2 i a Hi. apply lookup_app_Some in Hi as [Hi|[Hlen Hi]].
  - by apply H1.
  - rewrite (H2 _ _ Hi). do 2 f_equal. lia.
Qed.

Lemma appends_statusRule (r : ProbeResult) (k : nat) :
  appends now (statusRule now r) k.
Proof.
  unfold appends, statusRule, push.
  destruct (status r);
    [exists []; split; [intros acc; by rewrite app_nil_r, Nat.add_0_r|apply stamped_nil]
    |eexists [_]; split; [intros acc; by rewrite Nat.add_1_r|by apply stamped_singleton]..].
Qed.

Lemma appends_responseTimeRule (r : ProbeResult) (k : nat) :
  appends now (responseTimeRule cfg now r) k.
Proof.
  unfold appends, responseTimeRule, push.
  destruct (responseTime r) as [t|];
    [destruct (responseTimeLimit (thresholds cfg) <? t)|];
    [eexists [_]; split; [intros acc; by rewrite Nat.add_1_r|by apply stamped_singleton]
    |exists []; split; [intros acc; by rewrite app_nil_r, Nat.add_0_r|apply stamped_nil]..].
Qed.

Lemma appends_certificateRule (r : ProbeResult) (k : nat) :
  appends now (certificateRule cfg now r) k.
Proof.
  unfold appends, certificateRule, push.
  destruct (certificate r) as [| |info];
    [| |destruct (daysToExpiration info <? certExpirationDays (thresholds cfg))];
    [exists []; split; [intros acc; by rewrite app_nil_r, Nat.add_0_r|apply stamped_nil]..
    |eexists [_]; split; [intros acc; by rewrite Nat.add_1_r|by apply stamped_singleton]
    |exists []; split; [intros acc; by rewrite app_nil_r, Nat.add_0_r|apply stamped_nil]].
Qed.

Lemma appends_compose (f g : list Alert * nat -> list Alert * nat) (k : nat) :
  appends now f k -> (forall k', appends now g k') -> appends now (fun st => g (f st)) k.
Proof.
  intros (n1 & Hf & S1) Hg. destruct (Hg (k + length n1)%nat) as (n2 & Hg2 & S2).
  exists (n1 ++ n2). split; [|by apply stamped_app].
  intros acc. rewrite Hf, Hg2, length_app. f_equal; [by rewrite (assoc_L (++))|lia].
Qed.

Lemma appends_serviceRules (r : ProbeResult) (k : nat) :
  appends now (fun st => serviceRules cfg now st r) k.
Proof.
  unfold serviceRules.
  apply (appends_compose (fun st => responseTimeRule cfg now r (statusRule now r st))
                         (certificateRule cfg now r)).
  - apply (appends_compose (statusRule now r) (responseTimeRule cfg now r)).
    + apply appends_statusRule.
    + intros k'. apply appends_responseTimeRule.
  - intros k'. apply appends_certificateRule.
Qed.

Lemma appends_services (results : list ProbeResult) (k : nat) :
  appends now (fold_left (serviceRules cfg now) results) k.
Proof.
  revert k. induction results as [|r results IH]; intros k.
  - exists []. split; [intros acc; by rewrite app_nil_r, Nat.add_0_r|apply stamped_nil].
  - apply (appends_compose (fun st => serviceRules cfg now st r)
                           (fold_left (serviceRules cfg now) results)).
    + apply appends_serviceRules.
    + exact IH.
Qed.

(** The container loop either appends stamped alerts or throws, the same
    whatever was accumulated before. *)
Lemma containers_append_or_throw (entries : list (string * option string))
    (k : nat) :
  (exists new,
     (forall acc, forEachM (containerRule now) entries (acc, k)
                  = Normal (acc ++ new, (k + length new)%nat)) /\
     stamped now k new /\
     Forall (fun e : string * option string => is_Some e.2) entries) \/
  ((forall acc, forEachM (containerRule now) entries (acc, k)
                = Throw typeErrorIncludes) /\
   Exists (fun e : string * option string => e.2 = None) entries).
Proof.
  revert k. induction entries as [|[cname [s|]] entries IH]; intros k.
  - left. exists []. split; [intros acc; by rewrite app_nil_r, Nat.add_0_r|].
    split; [apply stamped_nil|constructor].
  - simpl. destruct (includes s "Up ").
    + destruct (IH k) as [(new & Hn & Hs & Hf)|[Ht He]].
      * left. exists new. split; [done|]. split; [done|]. constructor; [by eexists|done].
      * right. split; [done|]. by right.
    + destruct (IH (S k)) as [(new & Hn & Hs & Hf)|[Ht He]].
      * left. eexists (_ :: new). split; [|split].
        -- intros acc. unfold push. rewrite Hn, <- (assoc_L (++)). simpl.
           do 2 f_equal. lia.
        -- apply (stamped_app k [_] new); [by apply stamped_singleton|].
           simpl. by rewrite Nat.add_1_r.
        -- constructor; [by eexists|done].
      * right. split; [intros acc; apply Ht|]. by right.
  - right. split; [done|]. by left.
Qed.

(** The engine returns stamped alerts, or throws on a status that is
    [undefined]; in both cases the alerts of the results come first. *)
Lemma generateAlerts_outcome (results : list ProbeResult) (cs : ContainerStatus)
    (k : nat) :
  exists fromServices,
    (forall acc, fold_left (serviceRules cfg now) results (acc, k)
                 = (acc ++ fromServices, (k + length fromServices)%nat)) /\
    stamped now k fromServices /\
    ((exists fromContainers,
        generateAlerts cfg now results cs k
        = Normal (fromServices ++ fromContainers,
                  (k + length (fromServices ++ fromContainers))%nat) /\
        stamped now k (fromServices ++ fromContainers) /\
        generateAlerts cfg now [] cs (k + length fromServices)
        = Normal (fromContainers,
                  (k + length fromServices + length fromContainers)%nat) /\
        statusesDefined cs) \/
     (generateAlerts cfg now results cs k = Throw typeErrorIncludes /\
      ~ statusesDefined cs)).
Proof.
  destruct (appends_services results k) as (new & Hnew & Hst).
  exists new. split; [done|]. split; [done|].
  unfold generateAlerts. rewrite Hnew. simpl.
  destruct cs as [msg|c].
  - left. exists []. rewrite !app_nil_r, Nat.add_0_r. simpl. done.
  - destruct (containers_append_or_throw (map_to_list c) (k + length new))
      as [(nc & Hn & Hs & Hf)|[Ht He]].
    + left. exists nc. rewrite Hn, length_app, Nat.add_assoc. simpl.
      split; [done|]. split; [by apply stamped_app|]. split; [|done].
      by rewrite (Hn []).
    + right. rewrite Ht. split; [done|]. simpl. intros Hf.
      apply Exists_exists in He as ([n v] & Hin & Hv). simpl in Hv. subst v.
      rewrite Forall_forall in Hf. by destruct (Hf _ Hin).
Qed.

(** X5.  The alert engine throws exactly when the container mapping holds a
    status that is [undefined]; the error is then the TypeError of
    [status.includes], and no alert is returned.  It never stays pending. *)
Theorem engine_throws_iff_undefined_status (results : list ProbeResult)
    (cs : ContainerStatus) (k : nat) :
  (generateAlerts cfg now results cs k = Throw typeErrorIncludes <->
   exists c cname, cs = Containers c /\ c !! cname = Some None) /\
  (forall e, generateAlerts cfg now results cs k = Throw e -> e = typeErrorIncludes) /\
  generateAlerts cfg now results cs k <> Pending.
Proof.
  destruct (generateAlerts_outcome results cs k)
    as (fs & _ & _ & [(fc & Hgen & _ & _ & Hdef)|[Hgen Hundef]]); rewrite Hgen.
  - split; [|split; [by intros e [=]|done]]. split; [done|].
    intros (c & cname & -> & Hc). simpl in Hdef. rewrite Forall_forall in Hdef.
    apply elem_of_map_to_list in Hc. by destruct (Hdef _ Hc).
  - split; [|split; [by intros e [= <-]|done]]. split; [intros _|done].
    destruct cs as [msg|c]; [by destruct Hundef|]. simpl in Hundef.
    apply not_Forall_Exists in Hundef; [|apply _].
    apply Exists_exists in Hundef as ([cname v] & Hin & Hv). simpl in Hv.
    exists c, cname. split; [done|]. apply elem_of_map_to_list in Hin.
    destruct v as [s|]; [|done]. destruct Hv. by eexists.
Qed.

(** X6.  The engine reads the clock once for every alert it raises, in
    order: the counter advances by the number of alerts, and the i-th alert
    bears the i-th reading. *)
Theorem one_clock_reading_per_alert (results : list ProbeResult)
    (cs : ContainerStatus) (k : nat) (alerts : list Alert) (k' : nat) :
  generateAlerts cfg now results cs k = Normal (alerts, k') ->
  k' = (k + length alerts)%nat /\
  forall i a, alerts !! i = Some a ->
              alertTimestamp a = toISOString (now (k + i)%nat).
Proof.
  destruct (generateAlerts_outcome results cs k)
    as (fs & _ & _ & [(fc & Hgen & Hst & _)|[Hgen _]]); rewrite Hgen; [|done].
  by intros [= <- <-].
Qed.

(** X8.  Alerts come in the order of the results, then the containers: the
    alerts for a list of results followed by another are those for the first
    list alone, followed by those the engine raises for the second list and
    the containers when started at the clock reading the first run ended on. *)
Theorem alerts_follow_result_order (rs1 rs2 : list ProbeResult)
    (cs : ContainerStatus) (k : nat) (alerts : list Alert) (k' : nat) :
  generateAlerts cfg now (rs1 ++ rs2) cs k = Normal (alerts, k') ->
  exists a1 k1 a2,
    (forall msg, generateAlerts cfg now rs1 (InspectionError msg) k = Normal (a1, k1)) /\
    generateAlerts cfg now rs2 cs k1 = Normal (a2, k') /\
    alerts = a1 ++ a2.
Proof.
  destruct (appends_services rs1 k) as (n1 & H1 & _).
  destruct (appends_services rs2 (k + length n1)) as (n2 & H2 & _).
  intros Hgen. exists n1, (k + length n1)%nat.
  unfold generateAlerts in *. rewrite fold_left_app, H1, H2 in Hgen.
  rewrite H1, (H2 []). simpl in *.
  destruct cs as [msg|c].
  - injection Hgen as <- <-. by exists n2.
  - destruct (containers_append_or_throw (map_to_list c) (k + length n1 + length n2))
      as [(nc & Hn & _)|[Ht _]]; [|by rewrite Ht in Hgen].
    rewrite Hn in Hgen. injection Hgen as <- <-.
    exists (n2 ++ nc). rewrite (Hn n2).
    split; [done|]. split; [done|]. by rewrite (assoc_L (++)).
Qed.

Lemma serviceKeys_nil (r : ProbeResult) : serviceKeys cfg r = [] <-> quiet cfg r.
Proof.
  unfold serviceKeys, quiet, statusKeys, responseTimeKeys, certificateKeys.
  destruct (status r), (responseTime r) as [t|], (certificate r) as [| |info];
    simpl; try (split; [done|by intros [[=] _]]);
    repeat match goal with
    | |- context [?a <? ?b] => destruct (Z.ltb_spec a b)
    end; simpl;
    (split;
     [try done; intros _; repeat split; try done; intros ? [= <-]; lia
     |try done; intros (_ & Ht & Hc);
      try (specialize (Ht _ eq_refl)); try (specialize (Hc _ eq_refl)); lia]).
Qed.

Lemma containerKeysOf_nil (cs : ContainerStatus) :
  containerKeysOf cs = [] <-> allUp cs.
Proof.
  destruct cs as [msg|c]; simpl; [done|]. split.
  - intros Hnil cname s Hc. apply elem_of_map_to_list in Hc.
    destruct (includes s "Up ") eqn:E; [done|].
    assert ((HIGH, cname, containerMessage cname s)
              ∈ map_to_list c ≫= containerKeys) as Hin.
    { apply list_elem_of_bind. exists (cname, Some s). split; [|done].
      unfold containerKeys. simpl. rewrite E. by left. }
    rewrite Hnil in Hin. by apply elem_of_nil in Hin.
  - intros Hup. destruct (map_to_list c ≫= containerKeys) as [|key l] eqn:E; [done|].
    assert (key ∈ map_to_list c ≫= containerKeys) as Hin by (rewrite E; by left).
    apply list_elem_of_bind in Hin as ([cname v] & Hk & Hin).
    apply containerKeys_cases in Hk as (s & Hv & Hno & _). simpl in Hv. subst v.
    apply elem_of_map_to_list in Hin. by rewrite (Hup _ _ Hin) in Hno.
Qed.

(** X7.  Given container statuses that are strings, the engine returns no
    alert at all exactly when every result is HEALTHY, within the
    response-time threshold and with no certificate below the expiration
    threshold, and every container status contains "Up ". *)
Theorem no_alert_iff_all_fine (results : list ProbeResult) (cs : ContainerStatus)
    (k : nat) :
  statusesDefined cs ->
  exists alerts k',
    generateAlerts cfg now results cs k = Normal (alerts, k') /\
    (alerts = [] <-> (forall r, r ∈ results -> quiet cfg r) /\ allUp cs).
Proof.
  intros Hcs.
  destruct (generateAlerts_keys cfg now results cs k Hcs)
    as (alerts & k' & Hgen & Hkeys).
  exists alerts, k'. split; [done|].
  rewrite <- containerKeysOf_nil.
  assert (alerts = [] <-> alertKey <$> alerts = []) as ->.
  { split; [by intros ->|apply fmap_nil_inv]. }
  rewrite Hkeys. split.
  - intros [Hs Hc]%app_eq_nil. split; [|done].
    intros r Hr. apply serviceKeys_nil.
    destruct (serviceKeys cfg r) as [|key l] eqn:E; [done|].
    assert (key ∈ results ≫= serviceKeys cfg) as Hin.
    { apply list_elem_of_bind. exists r. split; [rewrite E; by left|done]. }
    rewrite Hs in Hin. by apply elem_of_nil in Hin.
  - intros [Hq ->]. rewrite app_nil_r.
    destruct (results ≫= serviceKeys cfg) as [|key l] eqn:E; [done|].
    assert (key ∈ results ≫= serviceKeys cfg) as Hin by (rewrite E; by left).
    apply list_elem_of_bind in Hin as (r & Hk & Hr).
    apply Hq, serviceKeys_nil in Hr. rewrite Hr in Hk. by apply elem_of_nil in Hk.
Qed.

Lemma length_bind_le {A B : Type} (f : A -> list B) (l : list A) (n : nat) :
  (forall x, length (f x) <= n)%nat -> (length (l ≫= f) <= n * length l)%nat.
Proof.
  intros H. induction l as [|x l IH]; [simpl; lia|].
  rewrite bind_cons, length_app. specialize (H x). simpl. lia.
Qed.

(** X9.  Given container statuses that are strings, the engine raises at
    most three alerts for each result and at most one for each container. *)
Theorem at_most_three_alerts_per_result (results : list ProbeResult)
    (cs : ContainerStatus) (k : nat) :
  statusesDefined cs ->
  exists alerts k',
    generateAlerts cfg now results cs k = Normal (alerts, k') /\
    (length alerts <=
     3 * length results +
     match cs with
     | Containers c => size c
     | InspectionError _ => 0
     end)%nat.
Proof.
  intros Hcs.
  destruct (generateAlerts_keys cfg now results cs k Hcs)
    as (alerts & k' & Hgen & Hkeys).
  exists alerts, k'. split; [done|].
  rewrite <- (length_fmap alertKey), Hkeys, length_app.
  pose proof (length_bind_le (serviceKeys cfg) results 3) as Hs.
  assert (forall r, (length (serviceKeys cfg r) <= 3)%nat) as H3.
  { intros r. unfold serviceKeys, statusKeys, responseTimeKeys, certificateKeys.
    rewrite !length_app.
    destruct (status r), (responseTime r) as [t|], (certificate r) as [| |info];
      repeat match goal with
      | |- context [?a <? ?b] => destruct (a <? b)
      end; simpl; lia. }
  specialize (Hs H3).
  destruct cs as [msg|c]; simpl; [lia|].
  pose proof (length_bind_le containerKeys (map_to_list c) 1) as Hc.
  rewrite length_map_to_list in Hc.
  assert (forall e, (length (containerKeys e) <= 1)%nat) as H1.
  { intros [n [s|]]; unfold containerKeys; simpl; [|lia].
    destruct (includes s "Up "); simpl; lia. }
  specialize (Hc H1). lia.
Qed.

(** X10.  When the container inspection failed the engine behaves as with
    no container at all: it returns, and every alert it raises is for one of
    the results; the failure itself raises none. *)
Theorem failed_inspection_is_silent (results : list ProbeResult) (msg : string)
    (k : nat) :
  generateAlerts cfg now results (InspectionError msg) k
    = generateAlerts cfg now results (Containers ∅) k /\
  exists alerts k',
    generateAlerts cfg now results (InspectionError msg) k = Normal (alerts, k') /\
    forall a, a ∈ alerts -> exists r, r ∈ results /\ service a = name r.
Proof.
  split.
  - unfold generateAlerts. by rewrite map_to_list_empty.
  - destruct (generateAlerts_keys cfg now results (InspectionError msg) k I)
      as (alerts & k' & Hgen & Hkeys).
    exists alerts, k'. split; [done|]. intros a Ha.
    destruct (alert_origin cfg _ _ _ _ Hkeys Ha) as [(r & Hr & Hk)|Hk].
    + exists r. split; [done|]. by apply serviceKeys_service in Hk.
    + by apply elem_of_nil in Hk.
Qed.

Lemma filter_response_time_keys (n : string) (keys : list AlertKey) :
  (forall key, key ∈ keys -> key.1.2 <> n \/ key.1.1 = HIGH) ->
  filter (isResponseTimeKey n) keys = [].
Proof.
  intros H. apply filter_none. intros key Hk [Hl Hs].
  destruct (H key Hk) as [?|E]; [done|]. by rewrite Hl in E.
Qed.

(** X11.  For a result with a response time, among results with distinct
    names and with container statuses that are strings, the MEDIUM alerts for
    that service are: exactly one, whose message gives the response time and
    the threshold in milliseconds, when the response time is strictly above
    the threshold; none when it is equal or below.  This does not depend on
    the status of the result. *)
Theorem response_time_alert_iff_above_threshold
    (results : list ProbeResult) (cs : ContainerStatus) (k : nat)
    (r : ProbeResult) (t : Z) :
  r ∈ results ->
  NoDup (name <$> results) ->
  responseTime r = Some t ->
  statusesDefined cs ->
  exists alerts k',
    generateAlerts cfg now results cs k = Normal (alerts, k') /\
    alertKey <$> filter (isResponseTimeAlert (name r)) alerts =
      (if decide (responseTimeLimit (thresholds cfg) < t)
       then [(MEDIUM, name r,
              name r +:+ " response time (" +:+ numberToString t
                +:+ "ms) exceeds threshold ("
                +:+ numberToString (responseTimeLimit (thresholds cfg)) +:+ "ms)")]
       else []).
Proof.
  intros Hin Hnd Hrt Hcs.
  destruct (generateAlerts_keys cfg now results cs k Hcs)
    as (alerts & k' & Hgen & Hkeys).
  exists alerts, k'. split; [done|].
  destruct (names_unique_split _ _ Hin Hnd) as (before & after & -> & Hnames).
  rewrite fmap_app, not_elem_of_app in Hnames. destruct Hnames as [Hb Ha].
  etrans; [apply (filter_fmap_key (isResponseTimeKey (name r)))|].
  rewrite Hkeys, bind_app, bind_cons, !filter_app.
  assert (forall rs : list ProbeResult, name r ∉ name <$> rs ->
            filter (isResponseTimeKey (name r)) (rs ≫= serviceKeys cfg) = [])
    as Hothers.
  { intros rs Hrs. apply filter_response_time_keys.
    intros key (r' & Hk & Hr')%list_elem_of_bind. left.
    rewrite (serviceKeys_service cfg r' key Hk). intros E. apply Hrs.
    rewrite <- E. by apply list_elem_of_fmap_2. }
  rewrite !Hothers by done.
  rewrite (filter_response_time_keys _ (containerKeysOf cs)).
  2:{ intros key (c & cname & s & _ & _ & _ & ->)%containerKeysOf_cases. by right. }
  unfold serviceKeys. rewrite !filter_app.
  rewrite (filter_response_time_keys _ (statusKeys r)).
  2:{ intros key Hk. right. unfold statusKeys in Hk.
      destruct (status r); try (by apply elem_of_nil in Hk);
        by apply list_elem_of_singleton in Hk as ->. }
  rewrite (filter_response_time_keys _ (certificateKeys cfg r)).
  2:{ intros key Hk. right. unfold certificateKeys in Hk.
      destruct (certificate r) as [| |info]; try (by apply elem_of_nil in Hk).
      destruct (_ <? _); [|by apply elem_of_nil in Hk].
      by apply list_elem_of_singleton in Hk as ->. }
  simpl. rewrite app_nil_r. unfold responseTimeKeys. rewrite Hrt.
  destruct (Z.ltb_spec (responseTimeLimit (thresholds cfg)) t).
  - rewrite decide_True by done. by rewrite filter_cons, decide_True.
  - by rewrite decide_False by lia.
Qed.

End EngineMore.

(** ** More about the cycle *)

Section CycleMore.

Variable cfg : Config.
Variable now : nat -> Date.



Lemma awaitAll_cases (probes : list (option ProbeResult)) :
  (Forall is_Some probes /\ exists results,
     probes = Some <$> results /\ awaitAll probes = Normal results) \/
  (~ Forall is_Some probes /\ awaitAll probes = Pending).
Proof.
  unfold awaitAll. destruct (mapM id probes) as [results|] eqn:E.
  - left. apply mapM_Some in E.
    assert (probes = Some <$> results) as ->.
    { induction E as [|o r ps rs Ho _ IH]; [done|]. simpl in Ho. subst o.
      by rewrite fmap_cons, IH. }
    split; [|by exists results].
    apply Forall_fmap, Forall_forall. intros r _. by eexists.
  - right. split; [|done]. intros Hall.
    assert (is_Some (mapM id probes)) as [? Hs]; [|congruence].
    apply mapM_is_Some. by apply Forall_impl with (P := is_Some).
Qed.

Lemma results_bear_service_names (svcs : list ServiceTarget)
    (network : nat -> list Event) (i k : nat) (results : list ProbeResult) :
  (probeAll cfg now svcs network i k).1 = Some <$> results ->
  name <$> results = svc_name <$> svcs.
Proof.
  intros E. pose proof (probeAll_spec cfg now svcs network i k) as H.
  rewrite E in H. apply Forall2_fmap_r in H. clear E.
  induction H as [|svc r svcs' rs (j & k0 & Hr) _ IH]; [done|].
  rewrite !fmap_cons, IH. f_equal. symmetry in Hr.
  by apply checkService_cases in Hr as [? _].
Qed.

(** X12.  A cycle that completes leaves the entries of [metrics.services]
    under names that are not configured as they were, and replaces the rest
    of the snapshot: the alerts, the time of the last check and the container
    statuses it stores are those of this cycle alone, the same whatever
    snapshot and file the cycle started from. *)
Theorem cycle_merges_services_and_replaces_the_rest
    (metrics : Metrics) (file : File) (network : nat -> list Event)
    (docker : ExecResult) (k : nat)
    (metrics' : Metrics) (file' : File) (k' : nat)
    (metrics2 : Metrics) (file2 : File) :
  runCheck cfg now metrics file network docker k = Normal (metrics', file', k') ->
  (forall n, n ∉ svc_name <$> cfg_services cfg ->
             services metrics' !! n = services metrics !! n) /\
  containerStatus metrics' = containersOf (checkContainers docker) /\
  exists metrics2',
    runCheck cfg now metrics2 file2 network docker k
      = Normal (metrics2', save metrics2' file2, k') /\
    alerts metrics2' = alerts metrics' /\
    lastCheck metrics2' = lastCheck metrics' /\
    containerStatus metrics2' = containerStatus metrics'.
Proof.
  unfold runCheck.
  destruct (probeAll cfg now (cfg_services cfg) network 0 (S k)) as [probes k1] eqn:Ep.
  destruct (awaitAll_cases probes) as [(_ & results & -> & ->)|[_ ->]]; [|done].
  destruct (generateAlerts cfg now results (checkContainers docker) k1)
    as [[currentAlerts k2]| |]; [|done..].
  intros [= <- <- <-]. simpl. split; [|split; [done|by eexists]].
  intros n Hn. apply storeResults_other.
  rewrite (results_bear_service_names (cfg_services cfg) network 0 (S k)); [done|].
  by rewrite Ep.
Qed.


Lemma printed_statuses_when_defined (c : gmap string (option string)) :
  Forall (fun e : string * option string => is_Some e.2) (map_to_list c) ->
  list_to_map (printedStatuses c) = c.
Proof.
  intros Hdef. apply map_eq. intros n. apply option_eq. intros v. split.
  - intros Hv%elem_of_list_to_map_2.
    by apply printedStatuses_elem in Hv as (s & -> & Hc).
  - intros Hc. apply elem_of_list_to_map_1; [apply printedStatuses_NoDup|].
    apply printedStatuses_elem.
    rewrite Forall_forall in Hdef.
    destruct (Hdef (n, v)) as [s Hs]; [by apply elem_of_map_to_list|].
    simpl in Hs. subst v. by exists s.
Qed.

Lemma decodeMetrics_encode (m : Metrics) :
  decodeMetrics (encodeMetrics m)
  = Some {| lastCheck := lastCheck m;
            services := services m;
            containerStatus :=
              (fun c => list_to_map (printedStatuses c)) <$> containerStatus m;
            alerts := alerts m |}.
Proof.
  destruct m as [lc sv cs al]. unfold decodeMetrics, encodeMetrics.
  destruct lc as [t|], cs as [c|]; simpl;
    rewrite (decodeEntries_encode encodeResult decodeResult _ decodeResult_encode);
    simpl; rewrite list_to_map_to_list;
    rewrite (mapM_fmap_Some _ _ _ decodeAlert_encode); simpl;
    rewrite ?decodeEntries_statuses; done.
Qed.

(** X14.  What a completed cycle writes to the metrics file is read back, at
    the next start of the script, as exactly the snapshot the cycle left in
    memory. *)
Theorem completed_cycle_reloads (metrics : Metrics) (file : File)
    (network : nat -> list Event) (docker : ExecResult) (k : nat)
    (metrics' : Metrics) (file' : File) (k' : nat) :
  runCheck cfg now metrics file network docker k = Normal (metrics', file', k') ->
  load file' = Snapshot metrics'.
Proof.
  unfold runCheck.
  destruct (probeAll cfg now (cfg_services cfg) network 0 (S k)) as [probes k1].
  destruct (awaitAll probes) as [results| |]; [|done..].
  destruct (generateAlerts_outcome cfg now results (checkContainers docker) k1)
    as (fs & _ & _ & [(fc & -> & _ & _ & Hdef)|[-> _]]); [|done].
  intros [= <- <- <-]. unfold load, save. rewrite decodeMetrics_encode. simpl.
  do 2 f_equal. destruct (checkContainers docker) as [msg|c]; simpl; [done|].
  f_equal. by apply printed_statuses_when_defined.
Qed.

(** X18.  Storing the results of a cycle keeps, under each name, the last
    result of the list that bears it: when two configured services share a
    name the later one overwrites the earlier. *)
Theorem last_result_of_a_name_is_stored (before after : list ProbeResult)
    (r : ProbeResult) (base : gmap string ProbeResult) :
  name r ∉ name <$> after ->
  storeResults (before ++ r :: after) base !! name r = Some r.
Proof.
  intros Hafter. unfold storeResults. rewrite fold_left_app. simpl.
  change (fold_left _ after ?b) with (storeResults after b).
  rewrite storeResults_other by done. by rewrite lookup_insert_eq.
Qed.

End CycleMore.

(** ** More about the container inspector *)

Lemma includes_cons (c : ascii) (s needle : string) :
  includes (String c s) needle = String.prefix needle (String c s) || includes s needle.
Proof. reflexivity. Qed.

Lemma prefix_cons (x : ascii) (p : string) (c : ascii) (s : string) :
  String.prefix (String x p) (String c s)
  = if Ascii.ascii_dec x c then String.prefix p s else false.
Proof. reflexivity. Qed.

Lemma prefix_nil (s : string) : String.prefix "" s = true.
Proof. by destruct s. Qed.

Lemma splitFrom_cons (sep cur : string) (c : ascii) (s : string) :
  splitFrom sep 0 cur (String c s)
  = if String.prefix sep (String c s)
    then cur :: splitFrom sep (String.length sep - 1) "" s
    else splitFrom sep 0 (cur +:+ String c "") s.
Proof. reflexivity. Qed.

Lemma splitFrom_skip (sep cur : string) (k : nat) (c : ascii) (s : string) :
  splitFrom sep (S k) cur (String c s) = splitFrom sep k cur s.
Proof. reflexivity. Qed.

Lemma split_newline_none (a cur : string) :
  includes a newline = false -> splitFrom newline 0 cur a = [cur +:+ a].
Proof.
  revert cur. induction a as [|c a IH]; intros cur H.
  - by rewrite sapp_nil_r.
  - rewrite includes_cons in H. apply orb_false_iff in H as [Hp Hi].
    rewrite splitFrom_cons, Hp, IH by done. by rewrite sapp_assoc.
Qed.

Lemma split_newline_app (a b cur : string) :
  includes a newline = false ->
  splitFrom newline 0 cur (a +:+ newline +:+ b)
  = (cur +:+ a) :: splitFrom newline 0 "" b.
Proof.
  revert cur. induction a as [|c a IH]; intros cur H.
  - rewrite sapp_nil_l, sapp_nil_r. unfold newline at 2. rewrite sapp_cons, sapp_nil_l.
    rewrite splitFrom_cons. unfold newline at 1. rewrite prefix_cons, prefix_nil.
    by destruct (Ascii.ascii_dec _ _).
  - rewrite includes_cons in H. apply orb_false_iff in H as [Hp Hi].
    rewrite sapp_cons, splitFrom_cons.
    assert (String.prefix newline (String c (a +:+ newline +:+ b)) = false) as ->.
    { unfold newline in *. rewrite prefix_cons in *.
      destruct (Ascii.ascii_dec _ c); [|done]. by rewrite prefix_nil in Hp. }
    rewrite IH by done. by rewrite sapp_assoc.
Qed.

Lemma prefix_colon_false (c : ascii) (a rest : string) :
  String.prefix ": " (String c a) = false ->
  String.prefix ": " (String c (a +:+ ": " +:+ rest)) = false.
Proof.
  rewrite !prefix_cons. destruct (Ascii.ascii_dec _ c); [|done].
  destruct a as [|d a].
  - intros _. rewrite sapp_nil_l, sapp_cons, prefix_cons.
    by destruct (Ascii.ascii_dec _ _).
  - rewrite sapp_cons, !prefix_cons, !prefix_nil. by destruct (Ascii.ascii_dec _ d).
Qed.

Lemma split_colon_none (a cur : string) :
  includes a ": " = false -> splitFrom ": " 0 cur a = [cur +:+ a].
Proof.
  revert cur. induction a as [|c a IH]; intros cur H.
  - by rewrite sapp_nil_r.
  - rewrite includes_cons in H. apply orb_false_iff in H as [Hp Hi].
    rewrite splitFrom_cons, Hp, IH by done. by rewrite sapp_assoc.
Qed.

Lemma split_colon_app (a b cur : string) :
  includes a ": " = false ->
  splitFrom ": " 0 cur (a +:+ ": " +:+ b) = (cur +:+ a) :: splitFrom ": " 0 "" b.
Proof.
  revert cur. induction a as [|c a IH]; intros cur H.
  - rewrite sapp_nil_l, sapp_nil_r, !sapp_cons, sapp_nil_l, splitFrom_cons.
    rewrite !prefix_cons, prefix_nil.
    destruct (Ascii.ascii_dec ":" ":"); [|done].
    destruct (Ascii.ascii_dec " " " "); [|done].
    change (String.length ": " - 1)%nat with 1%nat. by rewrite splitFrom_skip.
  - rewrite includes_cons in H. apply orb_false_iff in H as [Hp Hi].
    rewrite sapp_cons, splitFrom_cons.
    rewrite (prefix_colon_false c a b Hp), IH by done. by rewrite sapp_assoc.
Qed.

Lemma splitFrom_nonempty (sep : string) (skip : nat) (cur s : string) :
  splitFrom sep skip cur s <> [].
Proof.
  revert skip cur. induction s as [|c s IH]; intros skip cur; [done|].
  destruct skip; [|rewrite splitFrom_skip; apply IH].
  rewrite splitFrom_cons. destruct (String.prefix sep _); [done|apply IH].
Qed.

(** A line [name: status]: the name goes first and the kept part of the
    status second. *)
Lemma split_line (e : string * string) :
  includes e.1 ": " = false ->
  hd "undefined" (split (lineOf e) ": ") = e.1 /\
  hd_error (tl (split (lineOf e) ": ")) = Some (keptStatus e.2).
Proof.
  intros H. unfold split, lineOf, keptStatus, split.
  rewrite (split_colon_app e.1 e.2 "" H), sapp_nil_l. simpl. split; [done|].
  pose proof (splitFrom_nonempty ": " 0 "" e.2).
  by destruct (splitFrom ": " 0 "" e.2).
Qed.

Lemma trimEnd_app (a b : string) :
  b <> "" -> trimEnd b = b -> trimEnd (a +:+ b) = a +:+ b.
Proof.
  intros Hb Ht. induction a as [|c a IH]; [by rewrite sapp_nil_l|].
  rewrite sapp_cons. simpl. rewrite IH.
  destruct (a +:+ b) eqn:E; [|done].
  destruct a; [rewrite sapp_nil_l in E; by subst|by rewrite sapp_cons in E].
Qed.

Lemma trimEnd_newline (t : string) : trimEnd (t +:+ newline) = trimEnd t.
Proof.
  induction t as [|c t IH]; [reflexivity|]. rewrite sapp_cons. simpl. by rewrite IH.
Qed.

Lemma includes_app_false (a b needle : string) :
  includes (a +:+ b) needle = false -> includes b needle = false.
Proof.
  induction a as [|c a IH]; [by rewrite sapp_nil_l|].
  rewrite sapp_cons, includes_cons. intros [_ H]%orb_false_iff. by apply IH.
Qed.

Lemma includes_newline_app (a b : string) :
  includes a newline = false -> includes b newline = false ->
  includes (a +:+ b) newline = false.
Proof.
  intros Ha Hb. induction a as [|c a IH]; [by rewrite sapp_nil_l|].
  rewrite includes_cons in Ha. apply orb_false_iff in Ha as [Hp Hi].
  rewrite sapp_cons, includes_cons, IH by done. rewrite orb_false_r.
  unfold newline in *. rewrite prefix_cons in *.
  destruct (Ascii.ascii_dec _ c); [|done]. by rewrite prefix_nil in Hp.
Qed.

Lemma tidy_line (e : string * string) :
  tidy e.1 -> tidy e.2 -> tidy (lineOf e).
Proof.
  intros (Hn & Hs & _ & Hl) (Hn2 & _ & He2 & Hl2). unfold lineOf.
  split; [|split; [|split]].
  - destruct e.1; [done|]. by rewrite sapp_cons.
  - destruct e.1; [done|]. by rewrite sapp_cons.
  - rewrite <- sapp_assoc. by apply trimEnd_app.
  - apply includes_newline_app; [done|]. by apply (includes_newline_app ": ").
Qed.

Lemma joinLines_cons (l : string) (ls : list string) :
  ls <> [] -> joinLines (l :: ls) = l +:+ newline +:+ joinLines ls.
Proof. by destruct ls. Qed.

Lemma joinLines_tidy (ls : list string) :
  ls <> [] -> Forall tidy ls ->
  joinLines ls <> "" /\ startsClean (joinLines ls) /\
  trimEnd (joinLines ls) = joinLines ls.
Proof.
  intros Hne Hall. induction Hall as [|l ls (Hn & Hs & He & _) Hall IH]; [done|].
  destruct ls as [|l2 ls]; [done|].
  destruct IH as (IH1 & _ & IH3); [done|].
  rewrite joinLines_cons by done. split; [|split].
  - destruct l; [done|]. by rewrite sapp_cons.
  - destruct l; [done|]. by rewrite sapp_cons.
  - rewrite <- sapp_assoc. by apply trimEnd_app.
Qed.

Lemma split_joinLines (ls : list string) :
  ls <> [] -> Forall tidy ls -> split (joinLines ls) newline = ls.
Proof.
  intros Hne Hall. unfold split.
  induction Hall as [|l ls (_ & _ & _ & Hl) Hall IH]; [done|].
  destruct ls as [|l2 ls].
  - simpl. by rewrite split_newline_none, sapp_nil_l.
  - rewrite joinLines_cons by done.
    rewrite split_newline_app, sapp_nil_l by done. f_equal. by apply IH.
Qed.

Lemma dockerOutput_joinLines (entries : list (string * string)) :
  entries <> [] ->
  dockerOutput entries = joinLines (lineOf <$> entries) +:+ newline.
Proof.
  intros Hne. induction entries as [|e entries IH]; [done|].
  destruct entries as [|e2 entries].
  { change (dockerOutput [e]) with (lineOf e +:+ newline +:+ "").
    by rewrite sapp_nil_r. }
  rewrite fmap_cons, joinLines_cons by done.
  change (dockerOutput (e :: e2 :: entries))
    with (lineOf e +:+ newline +:+ dockerOutput (e2 :: entries)).
  rewrite IH by done. by rewrite !sapp_assoc.
Qed.

Lemma trim_dockerOutput (entries : list (string * string)) :
  entries <> [] ->
  Forall (fun e : string * string => tidy e.1 /\ tidy e.2) entries ->
  split (trim (dockerOutput entries)) newline = lineOf <$> entries.
Proof.
  intros Hne Hall.
  assert (Forall tidy (lineOf <$> entries)) as Hlines.
  { apply Forall_fmap. eapply Forall_impl; [exact Hall|].
    intros e [? ?]. by apply tidy_line. }
  assert (lineOf <$> entries <> []) as Hne' by (by destruct entries).
  destruct (joinLines_tidy _ Hne' Hlines) as (Hj1 & Hj2 & Hj3).
  rewrite dockerOutput_joinLines by done. unfold trim.
  assert (trimStart (joinLines (lineOf <$> entries) +:+ newline)
          = joinLines (lineOf <$> entries) +:+ newline) as ->.
  { destruct (joinLines (lineOf <$> entries)) as [|c t]; [done|].
    rewrite sapp_cons. simpl. simpl in Hj2. by rewrite Hj2. }
  rewrite trimEnd_newline, Hj3. by apply split_joinLines.
Qed.

(** X15.  For a listing of at least one container, with tidy names that
    contain no [": "] and tidy statuses, the inspector resolves to the mapping
    that gives each name the kept part of its status, a later line
    overwriting an earlier one of the same name; every container of the
    mapping has a status, and a status without [": "] is kept whole. *)
Theorem checkContainers_reads_each_line (entries : list (string * string)) :
  entries <> [] ->
  Forall (fun e : string * string =>
            tidy e.1 /\ tidy e.2 /\ includes e.1 ": " = false) entries ->
  checkContainers (ExecOk (dockerOutput entries))
    = Containers
        (fold_left (fun (m : gmap string (option string)) e =>
                      <[ e.1 := Some (keptStatus e.2) ]> m) entries ∅) /\
  statusesDefined (checkContainers (ExecOk (dockerOutput entries))) /\
  (forall s, includes s ": " = false -> keptStatus s = s).
Proof.
  intros Hne Hall.
  assert (checkContainers (ExecOk (dockerOutput entries))
          = Containers
              (fold_left (fun (m : gmap string (option string)) e =>
                            <[ e.1 := Some (keptStatus e.2) ]> m) entries ∅)) as E.
  { unfold checkContainers. rewrite trim_dockerOutput; [|done|].
    2:{ eapply Forall_impl; [exact Hall|]. by intros e (? & ? & _). }
    f_equal. generalize (∅ : gmap string (option string)) as m.
    clear Hne. induction Hall as [|e es (_ & _ & Hp) _ IH]; intros m; [done|].
    rewrite fmap_cons. simpl fold_left.
    destruct (split_line e Hp) as [-> ->]. apply IH. }
  split; [exact E|]. split.
  - rewrite E. simpl. apply Forall_forall. intros [n v] Hin%elem_of_map_to_list.
    simpl. clear E Hne Hall. revert Hin.
    assert (forall (es : list (string * string)) (m : gmap string (option string)),
              (forall n v, m !! n = Some v -> is_Some v) ->
              fold_left (fun (m : gmap string (option string)) e =>
                           <[ e.1 := Some (keptStatus e.2) ]> m) es m !! n = Some v ->
              is_Some v) as H.
    { induction es as [|e es IH]; intros m Hm; [apply Hm|].
      simpl. apply IH. intros n' v'. rewrite lookup_insert.
      case_decide; [intros [= <-]; by eexists|apply Hm]. }
    apply H. intros n' v'. by rewrite lookup_empty.
  - intros s Hs. unfold keptStatus, split.
    by rewrite split_colon_none, sapp_nil_l.
Qed.


(** X17.  A listing that, once trimmed, is a single line without [": "]
    (nothing at all when no container is running, or a stray message)
    makes the inspector resolve to one entry, named by that line, whose
    status is [undefined]; the alert engine then throws on any results. *)
Theorem listing_without_colon_breaks_engine (stdout : string)
    (cfg : Config) (now : nat -> Date) (results : list ProbeResult) (k : nat) :
  includes (trim stdout) newline = false ->
  includes (trim stdout) ": " = false ->
  checkContainers (ExecOk stdout) = Containers {[ trim stdout := None ]} /\
  generateAlerts cfg now results (checkContainers (ExecOk stdout)) k
    = Throw typeErrorIncludes.
Proof.
  intros Hl Hc.
  assert (checkContainers (ExecOk stdout) = Containers {[ trim stdout := None ]}) as E.
  { unfold checkContainers, split.
    rewrite split_newline_none, sapp_nil_l by done. simpl.
    rewrite split_colon_none, sapp_nil_l by done. simpl.
    by rewrite insert_empty. }
  split; [exact E|]. rewrite E. apply generateAlerts_undefined_status.
Qed.

(** ** The console report *)

Lemma reportContainers_defined (entries : list (string * option string))
    (lines : list string) :
  Forall (fun e : string * option string => is_Some e.2) entries ->
  exists more,
    forEachM reportContainer entries lines = Normal (lines ++ more) /\
    length more = length entries.
Proof.
  intros H. revert lines. induction H as [|[n v] entries [s Hs] _ IH]; intros lines.
  - exists []. by rewrite app_nil_r.
  - simpl in Hs. subst v.
    change (forEachM reportContainer ((n, Some s) :: entries) lines)
      with (forEachM reportContainer entries
              (lines ++ [(if includes s "Up " then green else red) +:+ n
                           +:+ resetColor +:+ ": " +:+ s])).
    match goal with
    | |- context [forEachM reportContainer entries ?l] =>
        destruct (IH l) as (more & -> & Hlen)
    end.
    eexists (_ :: more). rewrite <- (assoc_L (++)). simpl. split; [done|].
    by rewrite Hlen.
Qed.

Lemma reportAlert_not_operational (a : Alert) : reportAlert a <> operationalLine.
Proof.
  unfold reportAlert, operationalLine, red, yellow, escape, newline.
  destruct (level a); rewrite !sapp_cons; intros [=].
Qed.

(** X19.  Once the alert engine has returned, the console report of the
    cycle does not throw; it logs one line for each container; it ends with
    the line "All systems operational" exactly when the engine returned no
    alert, and otherwise with the header of the alerts followed by one line
    for each alert, in order. *)
Theorem report_follows_the_alerts (cfg : Config) (now : nat -> Date)
    (results : list ProbeResult) (cs : ContainerStatus) (k : nat)
    (alerts : list Alert) (k' : nat) :
  generateAlerts cfg now results cs k = Normal (alerts, k') ->
  exists containerLines lines,
    report cfg results cs alerts
    = Normal ([newline +:+ "--- SERVICE STATUS ---"]
              ++ (results ≫= reportService cfg)
              ++ [newline +:+ "--- CONTAINER STATUS ---"]
              ++ containerLines ++ lines) /\
    (forall c, cs = Containers c -> length containerLines = size c) /\
    (alerts = [] -> lines = [operationalLine]) /\
    (alerts <> [] ->
     lines = (newline +:+ "--- ALERTS ---") :: (reportAlert <$> alerts)) /\
    (last ([newline +:+ "--- SERVICE STATUS ---"]
           ++ (results ≫= reportService cfg)
           ++ [newline +:+ "--- CONTAINER STATUS ---"]
           ++ containerLines ++ lines) = Some operationalLine <-> alerts = []).
Proof.
  intros Hgen.
  destruct (generateAlerts_outcome cfg now results cs k)
    as (fs & _ & _ & [(fc & _ & _ & _ & Hdef)|[Hthrow _]]);
    [|by rewrite Hthrow in Hgen].
  unfold report.
  set (head := [newline +:+ "--- SERVICE STATUS ---"]
               ++ (results ≫= reportService cfg)
               ++ [newline +:+ "--- CONTAINER STATUS ---"]).
  set (tail := match alerts with
               | [] => [operationalLine]
               | _ => (newline +:+ "--- ALERTS ---") :: (reportAlert <$> alerts)
               end).
  assert (exists containerLines,
            match cs with
            | Containers containers =>
                forEachM reportContainer (map_to_list containers) head
            | InspectionError (String c e) =>
                Normal (head ++ ["Error: " +:+ String c e])
            | InspectionError EmptyString => Normal head
            end = Normal (head ++ containerLines) /\
            (forall c, cs = Containers c -> length containerLines = size c))
    as (containerLines & -> & Hsize).
  { destruct cs as [[|c e]|c].
    - exists []. by rewrite app_nil_r.
    - by eexists [_].
    - destruct (reportContainers_defined (map_to_list c) head Hdef)
        as (more & -> & Hlen).
      exists more. split; [done|]. intros c' [= <-].
      by rewrite Hlen, length_map_to_list. }
  exists containerLines, tail.
  assert (head ++ containerLines ++ tail
          = [newline +:+ "--- SERVICE STATUS ---"]
            ++ (results ≫= reportService cfg)
            ++ [newline +:+ "--- CONTAINER STATUS ---"]
            ++ containerLines ++ tail) as <-.
  { unfold head. by rewrite <- !(assoc_L (++)). }
  split; [by rewrite (assoc_L (++))|]. split; [done|].
  split; [by intros ->|]. split; [by destruct alerts|].
  rewrite !(assoc_L (++)). unfold tail.
  destruct alerts as [|a alerts] using rev_ind.
  - by rewrite last_snoc.
  - clear IHalerts. split; [|by intros [_ [=]]%app_eq_nil].
    assert (forall (l : list Alert), match l ++ [a] with
              | [] => [operationalLine]
              | _ => (newline +:+ "--- ALERTS ---") :: (reportAlert <$> l ++ [a])
              end = ((newline +:+ "--- ALERTS ---") :: (reportAlert <$> l))
                    ++ [reportAlert a]) as ->.
    { intros l. destruct l; [done|]. simpl. by rewrite fmap_app. }
    rewrite (assoc_L (++)), last_snoc. intros [= E].
    by apply reportAlert_not_operational in E.
Qed.

(** ** The running predicate *)

Lemma includes_nil (needle : string) :
  includes "" needle = String.prefix needle "" || false.
Proof. reflexivity. Qed.

(** [includes] finds the needle anywhere in the string. *)
Lemma includes_app (s needle : string) :
  includes s needle = true <-> exists a b, s = a +:+ needle +:+ b.
Proof.
  split.
  - induction s as [|c s IH].
    + rewrite includes_nil, orb_false_r. intros [y Hy]%prefix_app. by exists "", y.
    + rewrite includes_cons. intros [[y Hy]%prefix_app|H]%orb_true_iff.
      * by exists "", y.
      * destruct (IH H) as (a & b & ->). by exists (String c a), b.
  - intros (a & b & ->). induction a as [|c a IH].
    + rewrite sapp_nil_l.
      assert (String.prefix needle (needle +:+ b) = true) as Hp
        by (apply prefix_app; by exists b).
      destruct (needle +:+ b); [by rewrite includes_nil, Hp|].
      by rewrite includes_cons, Hp.
    + by rewrite sapp_cons, includes_cons, IH, orb_true_r.
Qed.

Lemma count_container_alert (cfg : Config) (results : list ProbeResult)
    (c : gmap string (option string)) (cname cstatus : string) :
  c !! cname = Some (Some cstatus) ->
  count (HIGH, cname, containerMessage cname cstatus)
        ((results ≫= serviceKeys cfg) ++ (map_to_list c ≫= containerKeys))
  = if includes cstatus "Up " then 0%nat else 1%nat.
Proof.
  intros Hlook. set (key := (HIGH, cname, containerMessage cname cstatus)).
  rewrite count_app.
  assert (count key (results ≫= serviceKeys cfg) = 0%nat) as ->.
  { apply count_bind_zero. intros r _. apply count_not_elem.
    intros [[_ E]|[(t & _ & _ & E)|(info & _ & _ & E)]]%serviceKeys_cases.
    - injection E as En E. rewrite En in E. symmetry in E.
      by apply status_not_container in E.
    - discriminate E.
    - unfold key, containerMessage, certificateMessage in E.
      rewrite !sapp_cons in E. discriminate E. }
  simpl. apply elem_of_map_to_list in Hlook.
  pose proof (NoDup_fst_map_to_list c) as Hnd.
  apply list_elem_of_split in Hlook as (l1 & l2 & El). rewrite El in *.
  rewrite fmap_app, fmap_cons in Hnd.
  apply NoDup_app in Hnd as (_ & H12 & Hnd). apply NoDup_cons in Hnd as [H2 _].
  rewrite bind_app, bind_cons, !count_app.
  assert (forall l : list (string * option string),
            cname ∉ l.*1 -> count key (l ≫= containerKeys) = 0%nat) as Hother.
  { intros l Hl. apply count_bind_zero. intros e He. apply count_not_elem.
    intros (s & _ & _ & [= E _])%containerKeys_cases.
    apply Hl. rewrite E. by apply list_elem_of_fmap_2. }
  rewrite !Hother; [| done |].
  - unfold containerKeys. simpl. destruct (includes cstatus "Up "); [done|].
    by rewrite count_singleton, decide_True.
  - intros H1. apply (H12 _ H1). by left.
Qed.

(** X20.  A container raises no alert exactly when the text "Up " (capital
    U, one space) occurs somewhere in its status: a status such as
    "Up 2 hours (unhealthy)" passes, any status without that text does not.
    Given a mapping whose statuses are strings. *)
Theorem container_passes_iff_status_contains_up
    (cfg : Config) (now : nat -> Date)
    (results : list ProbeResult) (containers : gmap string (option string))
    (k : nat) (cname cstatus : string) :
  containers !! cname = Some (Some cstatus) ->
  statusesDefined (Containers containers) ->
  exists alerts k',
    generateAlerts cfg now results (Containers containers) k
      = Normal (alerts, k') /\
    (occurrences
       (HIGH, cname, "Container " +:+ cname +:+ " is not running: " +:+ cstatus)
       alerts = 0%nat <->
     exists before after, cstatus = before +:+ "Up " +:+ after).
Proof.
  intros Hlook Hcs.
  destruct (generateAlerts_keys cfg now results _ k Hcs)
    as (alerts & k' & Hgen & Hkeys).
  exists alerts, k'. split; [done|].
  change ("Container " +:+ _) with (containerMessage cname cstatus).
  rewrite occurrences_count, Hkeys. simpl.
  rewrite (count_container_alert cfg results containers cname cstatus Hlook).
  rewrite <- includes_app. by destruct (includes cstatus "Up ").
Qed.

(** ** More runs on the sample inputs *)

Lemma status_matches_status_code_witness :
  (checkService config sampleClock nasaApp [Response 404 None] 0).1 = Some notFound /\
  name notFound = svc_name nasaApp /\ url notFound = svc_url nasaApp /\
  (status notFound = HEALTHY <-> statusCode notFound = Some (expectedStatus nasaApp)) /\
  (status notFound = UNHEALTHY ->
   exists code, statusCode notFound = Some code /\ code <> expectedStatus nasaApp /\
                error notFound = None) /\
  (status notFound = TIMEOUT ->
   statusCode notFound = None /\ error notFound = Some "Request timed out") /\
  (status notFound = ERROR -> statusCode notFound = None /\ is_Some (error notFound)).
Proof.
  split; [reflexivity|].
  exact (status_matches_status_code config sampleClock nasaApp [Response 404 None] 0
           notFound eq_refl).
Defined.

Lemma days_to_expiration_is_ceiling_witness :
  startsWith (svc_url nasaApp) "https" = true /\
  valid_to sampleCertificate
    = Some {| getTime := 400000000; toISOString := "2025-06-06T12:00:00.000Z" |} /\
  exists r k1 info,
    checkService config sampleClock nasaApp [Response 200 (Some sampleCertificate)] 0
      = (Some r, k1) /\
    certificate r = Cert info /\
    expirationDate info = "2025-06-06T12:00:00.000Z" /\
    issuer info = "R3" /\
    (issuer info = "Unknown" \/ Some "R3" = Some (issuer info)) /\
    let left := 400000000 - 2000 in
    86400000 * (daysToExpiration info - 1) < left <= 86400000 * daysToExpiration info /\
    (left <= 0 <-> daysToExpiration info <= 0).
Proof.
  split; [reflexivity|]. split; [reflexivity|].
  exact (days_to_expiration_is_ceiling config sampleClock nasaApp 200
           sampleCertificate _ [] 0 eq_refl eq_refl).
Defined.

Lemma one_clock_reading_per_alert_witness :
  exists alerts k',
    generateAlerts config sampleClock [notFound; slowButHealthy]
      (Containers webAndDb) 7 = Normal (alerts, k') /\
    k' = (7 + length alerts)%nat /\
    forall i a, alerts !! i = Some a ->
                alertTimestamp a = toISOString (sampleClock (7 + i)%nat).
Proof.
  assert (exists out,
            generateAlerts config sampleClock [notFound; slowButHealthy]
              (Containers webAndDb) 7 = Normal out)
    as [[alerts k'] Hgen] by (eexists; vm_compute; reflexivity).
  exists alerts, k'. split; [exact Hgen|].
  exact (one_clock_reading_per_alert config sampleClock _ _ 7 alerts k' Hgen).
Defined.

Lemma no_alert_iff_all_fine_witness :
  statusesDefined (Containers webAndDb) /\
  exists alerts k',
    generateAlerts config sampleClock [slowButHealthy] (Containers webAndDb) 0
      = Normal (alerts, k') /\
    (alerts = [] <->
     (forall r, r ∈ [slowButHealthy] -> quiet config r) /\ allUp (Containers webAndDb)).
Proof.
  assert (statusesDefined (Containers webAndDb)) as Hcs.
  { vm_compute. repeat constructor; by eexists. }
  split; [exact Hcs|].
  exact (no_alert_iff_all_fine config sampleClock [slowButHealthy]
           (Containers webAndDb) 0 Hcs).
Defined.

Lemma alerts_follow_result_order_witness :
  exists alerts k',
    generateAlerts config sampleClock ([notFound] ++ [slowButHealthy])
      (Containers webAndDb) 0 = Normal (alerts, k') /\
    exists a1 k1 a2,
      (forall msg, generateAlerts config sampleClock [notFound] (InspectionError msg) 0
                   = Normal (a1, k1)) /\
      generateAlerts config sampleClock [slowButHealthy] (Containers webAndDb) k1
        = Normal (a2, k') /\
      alerts = a1 ++ a2.
Proof.
  assert (exists out,
            generateAlerts config sampleClock ([notFound] ++ [slowButHealthy])
              (Containers webAndDb) 0 = Normal out)
    as [[alerts k'] Hgen] by (eexists; vm_compute; reflexivity).
  exists alerts, k'. split; [exact Hgen|].
  exact (alerts_follow_result_order config sampleClock _ _ _ 0 alerts k' Hgen).
Defined.

Lemma at_most_three_alerts_per_result_witness :
  statusesDefined (Containers webAndDb) /\
  exists alerts k',
    generateAlerts config sampleClock [notFound; slowButHealthy]
      (Containers webAndDb) 0 = Normal (alerts, k') /\
    (length alerts <= 3 * 2 + size webAndDb)%nat.
Proof.
  assert (statusesDefined (Containers webAndDb)) as Hcs.
  { vm_compute. repeat constructor; by eexists. }
  split; [exact Hcs|].
  exact (at_most_three_alerts_per_result config sampleClock
           [notFound; slowButHealthy] (Containers webAndDb) 0 Hcs).
Defined.

Lemma response_time_alert_iff_above_threshold_witness :
  slowButHealthy ∈ [notFound; slowButHealthy] /\
  NoDup (name <$> [notFound; slowButHealthy]) /\
  responseTime slowButHealthy = Some 2300 /\
  statusesDefined (InspectionError "docker: not found") /\
  exists alerts k',
    generateAlerts config sampleClock [notFound; slowButHealthy]
      (InspectionError "docker: not found") 0 = Normal (alerts, k') /\
    alertKey <$> filter (isResponseTimeAlert "Property App API") alerts =
      [(MEDIUM, "Property App API",
        "Property App API response time (2300ms) exceeds threshold (1500ms)")].
Proof.
  assert (slowButHealthy ∈ [notFound; slowButHealthy]) as Hin.
  { apply list_elem_of_further, list_elem_of_here. }
  assert (NoDup (name <$> [notFound; slowButHealthy])) as Hnd.
  { vm_compute. repeat constructor; intros H; inversion H as [|? ? ? H']; inversion H'. }
  split; [exact Hin|]. split; [exact Hnd|]. split; [reflexivity|]. split; [exact I|].
  exact (response_time_alert_iff_above_threshold config sampleClock
           [notFound; slowButHealthy] (InspectionError "docker: not found") 0
           slowButHealthy 2300 Hin Hnd eq_refl I).
Defined.

Lemma cycle_merges_services_and_replaces_the_rest_witness :
  exists metrics' file' k',
    runCheck config sampleClock
      {| lastCheck := Some "2025-05-31T12:00:00.000Z";
         services := {[ "Old App" := notFound ]};
         containerStatus := None;
         alerts := [] |}
      FileCorrupt allAnswer200 (ExecOk (dockerOutput sampleListing)) 0
      = Normal (metrics', file', k') /\
    (forall n, n ∉ svc_name <$> cfg_services config ->
               services metrics' !! n
               = ({[ "Old App" := notFound ]} : gmap string ProbeResult) !! n) /\
    containerStatus metrics'
      = containersOf (checkContainers (ExecOk (dockerOutput sampleListing))) /\
    exists metrics2',
      runCheck config sampleClock defaultMetrics FileAbsent allAnswer200
        (ExecOk (dockerOutput sampleListing)) 0
        = Normal (metrics2', save metrics2' FileAbsent, k') /\
      alerts metrics2' = alerts metrics' /\
      lastCheck metrics2' = lastCheck metrics' /\
      containerStatus metrics2' = containerStatus metrics'.
Proof.
  assert (exists out,
            runCheck config sampleClock
              {| lastCheck := Some "2025-05-31T12:00:00.000Z";
                 services := {[ "Old App" := notFound ]};
                 containerStatus := None;
                 alerts := [] |}
              FileCorrupt allAnswer200 (ExecOk (dockerOutput sampleListing)) 0
            = Normal out)
    as [[[metrics' file'] k'] Hrun] by (eexists; vm_compute; reflexivity).
  exists metrics', file', k'. split; [exact Hrun|].
  exact (cycle_merges_services_and_replaces_the_rest config sampleClock _ _ _ _ 0
           metrics' file' k' defaultMetrics FileAbsent Hrun).
Defined.

Lemma completed_cycle_reloads_witness :
  exists metrics' file' k',
    runCheck config sampleClock defaultMetrics FileAbsent allAnswer200
      (ExecOk (dockerOutput sampleListing)) 0 = Normal (metrics', file', k') /\
    load file' = Snapshot metrics'.
Proof.
  assert (exists out,
            runCheck config sampleClock defaultMetrics FileAbsent allAnswer200
              (ExecOk (dockerOutput sampleListing)) 0 = Normal out)
    as [[[metrics' file'] k'] Hrun] by (eexists; vm_compute; reflexivity).
  exists metrics', file', k'. split; [exact Hrun|].
  exact (completed_cycle_reloads config sampleClock _ _ _ _ 0 metrics' file' k' Hrun).
Defined.

Lemma checkContainers_reads_each_line_witness :
  sampleListing <> [] /\
  Forall (fun e : string * string =>
            tidy e.1 /\ tidy e.2 /\ includes e.1 ": " = false) sampleListing /\
  checkContainers (ExecOk (dockerOutput sampleListing))
    = Containers
        (fold_left (fun (m : gmap string (option string)) e =>
                      <[ e.1 := Some (keptStatus e.2) ]> m) sampleListing ∅) /\
  statusesDefined (checkContainers (ExecOk (dockerOutput sampleListing))) /\
  (forall s, includes s ": " = false -> keptStatus s = s).
Proof.
  assert (sampleListing <> []) as Hne by discriminate.
  assert (Forall (fun e : string * string =>
                    tidy e.1 /\ tidy e.2 /\ includes e.1 ": " = false) sampleListing)
    as Hall.
  { repeat constructor; try discriminate; reflexivity. }
  split; [exact Hne|]. split; [exact Hall|].
  exact (checkContainers_reads_each_line sampleListing Hne Hall).
Defined.


Lemma listing_without_colon_breaks_engine_witness :
  includes (trim "") newline = false /\
  includes (trim "") ": " = false /\
  checkContainers (ExecOk "") = Containers {[ trim "" := None ]} /\
  generateAlerts config sampleClock [notFound] (checkContainers (ExecOk "")) 0
    = Throw typeErrorIncludes.
Proof.
  split; [reflexivity|]. split; [reflexivity|].
  exact (listing_without_colon_breaks_engine "" config sampleClock [notFound] 0
           eq_refl eq_refl).
Defined.

Lemma last_result_of_a_name_is_stored_witness :
  (name (withCertificate 5) ∉ name <$> [slowButHealthy]) /\
  storeResults ([notFound] ++ withCertificate 5 :: [slowButHealthy]) ∅
    !! name (withCertificate 5) = Some (withCertificate 5).
Proof.
  assert (name (withCertificate 5) ∉ name <$> [slowButHealthy]) as Hout.
  { intros H. inversion H as [|? ? ? H']; inversion H'. }
  split; [exact Hout|].
  exact (last_result_of_a_name_is_stored [notFound] [slowButHealthy]
           (withCertificate 5) ∅ Hout).
Defined.

Lemma report_follows_the_alerts_witness :
  exists alerts k',
    generateAlerts config sampleClock [notFound] (Containers webAndDb) 0
      = Normal (alerts, k') /\
    exists containerLines lines,
      report config [notFound] (Containers webAndDb) alerts
      = Normal ([newline +:+ "--- SERVICE STATUS ---"]
                ++ ([notFound] ≫= reportService config)
                ++ [newline +:+ "--- CONTAINER STATUS ---"]
                ++ containerLines ++ lines) /\
      (forall c, Containers webAndDb = Containers c -> length containerLines = size c) /\
      (alerts = [] -> lines = [operationalLine]) /\
      (alerts <> [] ->
       lines = (newline +:+ "--- ALERTS ---") :: (reportAlert <$> alerts)) /\
      (last ([newline +:+ "--- SERVICE STATUS ---"]
             ++ ([notFound] ≫= reportService config)
             ++ [newline +:+ "--- CONTAINER STATUS ---"]
             ++ containerLines ++ lines) = Some operationalLine <-> alerts = []).
Proof.
  assert (exists out,
            generateAlerts config sampleClock [notFound] (Containers webAndDb) 0
            = Normal out)
    as [[alerts k'] Hgen] by (eexists; vm_compute; reflexivity).
  exists alerts, k'. split; [exact Hgen|].
  exact (report_follows_the_alerts config sampleClock [notFound]
           (Containers webAndDb) 0 alerts k' Hgen).
Defined.

Lemma container_passes_iff_status_contains_up_witness :
  webAndDb !! "web" = Some (Some "Up 2 hours") /\
  statusesDefined (Containers webAndDb) /\
  exists alerts k',
    generateAlerts config sampleClock [] (Containers webAndDb) 0
      = Normal (alerts, k') /\
    (occurrences (HIGH, "web", "Container web is not running: Up 2 hours") alerts
       = 0%nat <->
     exists before after, "Up 2 hours" = before +:+ "Up " +:+ after).
Proof.
  assert (statusesDefined (Containers webAndDb)) as Hcs.
  { vm_compute. repeat constructor; by eexists. }
  split; [reflexivity|]. split; [exact Hcs|].
  exact (container_passes_iff_status_contains_up config sampleClock []
           webAndDb 0 "web" "Up 2 hours" eq_refl Hcs).
Defined.

(** The report of a cycle in which a service answers 404 and one container
    has exited. *)
Example report_sample :
  report config [notFound] (Containers webAndDb)
    [{| level := HIGH; service := "NASA App";
        message := "NASA App is UNHEALTHY: 404";
        alertTimestamp := "2025-06-01T12:00:00.000Z" |}]
  = Normal
      [newline +:+ "--- SERVICE STATUS ---";
       red +:+ "NASA App" +:+ resetColor +:+ ": UNHEALTHY (1000ms)";
       newline +:+ "--- CONTAINER STATUS ---";
       green +:+ "web" +:+ resetColor +:+ ": Up 2 hours";
       red +:+ "db" +:+ resetColor +:+ ": Exited (1) 3 minutes ago";
       newline +:+ "--- ALERTS ---";
       red +:+ "[HIGH]" +:+ resetColor +:+ " NASA App: NASA App is UNHEALTHY: 404"].
Proof. vm_compute. reflexivity. Qed.
